(** * Client-side authentication glue of the stroke-risk-prediction app

    A shallow embedding of [static/js/firebase-config.js] (the Auth Client
    Wrapper and the error translator), of the registration page script
    (the [registerForm] submit handler, the [googleSignUpBtn] click handler
    and [completeBackendRegistration]) and of the forgot-password page
    script, followed by the properties proved about them.

    JavaScript strings are modelled by [string]; a character stands for
    the UTF-16 code unit with the same number (0..255). *)

From Stdlib Require Import ZArith NArith Ascii.
From stdpp Require Import gmap strings list.

Open Scope string_scope.
Set Warnings "-register-all".

(** ** JavaScript values *)

(** The values the scripts handle: primitives, objects parsed from JSON and
    [JInherited name], the member [name] that every plain object inherits
    from [Object.prototype] (a function, or the prototype object itself for
    [__proto__]). *)
Inductive JValue : Type :=
| JUndefined
| JNull
| JBool (b : bool)
| JNum (n : Z)
| JStr (s : string)
| JObj (members : list (string * JValue))
| JArr (items : list JValue)
| JInherited (name : string).

(** ToBoolean. *)
Definition truthy (v : JValue) : bool :=
  match v with
  | JUndefined | JNull => false
  | JBool b => b
  | JNum n => negb (n =? 0)%Z
  | JStr s => negb (String.eqb s EmptyString)
  | JObj _ | JArr _ | JInherited _ => true
  end.

(** [a || b]. *)
Definition js_or (a b : JValue) : JValue := if truthy a then a else b.

(** The own property names of [Object.prototype]. *)
Definition Object_prototype : list string :=
  [ "constructor"; "hasOwnProperty"; "isPrototypeOf"; "propertyIsEnumerable";
    "toLocaleString"; "toString"; "valueOf"; "__proto__";
    "__defineGetter__"; "__defineSetter__"; "__lookupGetter__"; "__lookupSetter__" ].

(** [obj[key]] for a plain object whose own property [key] is [own]: the own
    property when there is one, else what the prototype chain gives. *)
Definition property (own : option JValue) (key : string) : JValue :=
  match own with
  | Some v => v
  | None => if bool_decide (key ∈ Object_prototype) then JInherited key else JUndefined
  end.

(** The first member named [key] of a member list. *)
Fixpoint member (members : list (string * JValue)) (key : string) : option JValue :=
  match members with
  | [] => None
  | (k, v) :: rest => if String.eqb k key then Some v else member rest key
  end.

(** The members [JSON.stringify] writes for an object literal: a member whose
    value is [undefined] (or a function) is left out. *)
Definition serialisable (v : JValue) : bool :=
  match v with
  | JUndefined | JInherited _ => false
  | _ => true
  end.

Definition JSON_stringify (members : list (string * JValue)) : list (string * JValue) :=
  filter (λ kv, serialisable kv.2 = true) members.

(** The names of the members of a request body. *)
Definition keys (body : list (string * JValue)) : list string := body.*1.

(** ** Error translator ([getErrorMessage], firebase-config.js) *)

Definition errorMessages_entries : list (string * string) :=
  [ ("auth/email-already-in-use", "This email is already registered. Please sign in instead.");
    ("auth/invalid-email", "Please enter a valid email address.");
    ("auth/operation-not-allowed", "Email/password accounts are not enabled. Please contact support.");
    ("auth/weak-password", "Password should be at least 6 characters long.");
    ("auth/user-disabled", "This account has been disabled. Please contact support.");
    ("auth/user-not-found", "No account found with this email. Please sign up first.");
    ("auth/wrong-password", "Incorrect password. Please try again.");
    ("auth/invalid-credential", "Invalid email or password. Please try again.");
    ("auth/too-many-requests", "Too many failed attempts. Please try again later.");
    ("auth/network-request-failed", "Network error. Please check your connection.");
    ("auth/popup-closed-by-user", "Sign-in popup was closed. Please try again.");
    ("auth/cancelled-popup-request", "Sign-in was cancelled.");
    ("auth/popup-blocked", "Popup was blocked by your browser. Please allow popups and try again.");
    ("auth/account-exists-with-different-credential", "An account already exists with the same email but different sign-in credentials.");
    ("auth/invalid-action-code", "The password reset link is invalid or has expired. Please request a new one.");
    ("auth/expired-action-code", "The password reset link has expired. Please request a new one.");
    ("auth/missing-email", "Please enter your email address.");
    ("auth/requires-recent-login", "This operation requires recent authentication. Please sign in again.") ].

(** The object literal [errorMessages], as the map of its own properties. *)
Definition errorMessages : gmap string string := list_to_map errorMessages_entries.

Definition fallback_message : string := "An error occurred. Please try again.".

(** [errorMessages[errorCode] || 'An error occurred. Please try again.'] *)
Definition getErrorMessage (errorCode : string) : JValue :=
  js_or (property (JStr <$> errorMessages !! errorCode) errorCode)
        (JStr fallback_message).

(** ** Regular expressions (the [emailRegex] literal of the forgot-password page) *)

(** [\s]: the WhiteSpace and LineTerminator code units. *)
Definition is_whitespace (u : N) : bool :=
  bool_decide (u ∈ [9; 10; 11; 12; 13; 32; 160; 5760; 8232; 8233; 8239; 8287; 12288; 65279]%N)
  || ((8192 <=? u)%N && (u <=? 8202)%N).

Inductive ClassAtom : Type :=
| ClassSpace                (* \s *)
| ClassChar (c : N).        (* a literal character *)

Definition atom_has (a : ClassAtom) (u : N) : bool :=
  match a with
  | ClassSpace => is_whitespace u
  | ClassChar c => (c =? u)%N
  end.

Inductive Regex : Type :=
| RVoid
| REps
| RChar (c : N)
| RClass (negated : bool) (atoms : list ClassAtom)   (* [...] and [^...] *)
| RSeq (r1 r2 : Regex)
| RAlt (r1 r2 : Regex)
| RStar (r : Regex)
| RPlus (r : Regex).

Definition class_has (negated : bool) (atoms : list ClassAtom) (u : N) : bool :=
  xorb negated (existsb (λ a, atom_has a u) atoms).

Fixpoint nullable (r : Regex) : bool :=
  match r with
  | RVoid | RChar _ | RClass _ _ => false
  | REps | RStar _ => true
  | RSeq r1 r2 => nullable r1 && nullable r2
  | RAlt r1 r2 => nullable r1 || nullable r2
  | RPlus r => nullable r
  end.

(** The residual of [r] after reading the code unit [u]. *)
Fixpoint residual (u : N) (r : Regex) : Regex :=
  match r with
  | RVoid | REps => RVoid
  | RChar c => if (c =? u)%N then REps else RVoid
  | RClass negated atoms => if class_has negated atoms u then REps else RVoid
  | RSeq r1 r2 =>
      if nullable r1 then RAlt (RSeq (residual u r1) r2) (residual u r2)
      else RSeq (residual u r1) r2
  | RAlt r1 r2 => RAlt (residual u r1) (residual u r2)
  | RStar r => RSeq (residual u r) (RStar r)
  | RPlus r => RSeq (residual u r) (RStar r)
  end.

(** Whether the whole of [s] matches [r] (the pattern is anchored by ^ and $). *)
Fixpoint matches (r : Regex) (s : list N) : bool :=
  match s with
  | [] => nullable r
  | u :: s' => matches (residual u r) s'
  end.

Definition code_units (s : string) : list N := N_of_ascii <$> String.list_ascii_of_string s.

(** [regex.test(s)] for an anchored pattern without flags. *)
Definition RegExp_test (r : Regex) (s : string) : bool := matches r (code_units s).

(** [[^\s@]] *)
Definition not_space_or_at : Regex := RClass true [ClassSpace; ClassChar 64].

(** [/^[^\s@]+@[^\s@]+\.[^\s@]+$/] *)
Definition emailRegex : Regex :=
  RSeq (RPlus not_space_or_at)
    (RSeq (RChar 64)
      (RSeq (RPlus not_space_or_at)
        (RSeq (RChar 46) (RPlus not_space_or_at)))).

(** ** The provider, the backend and the page *)

(** What a rejected promise or a [throw] carries: [error.code] ([None] when
    the thrown value has no code, as for a [TypeError]) and [error.message]. *)
Record Exn : Type := { code : option string; message : string }.

Definition TypeError : Exn :=
  {| code := None; message := "Cannot read properties of undefined" |}.

(** The property key a code turns into: [undefined] reads the key "undefined". *)
Definition property_key (c : option string) : string := default "undefined" c.

(** [c === s] for a code that may be [undefined]. *)
Definition strict_eq (c : option string) (s : string) : bool :=
  match c with Some c => String.eqb c s | None => false end.

(** The provider's user object; [None] stands for [null]. *)
Module User.
Record t : Type := {
  uid : string;
  email : option string;
  displayName : option string;
  photoURL : option string;
  emailVerified : bool
}.
End User.

Definition nullable_string (s : option string) : JValue :=
  match s with Some s => JStr s | None => JNull end.

(** The object the wrapper returns; [None] is a field that is absent (it
    reads as [undefined]). *)
Module AuthResult.
Record t : Type := {
  success : bool;
  user : option User.t;
  error : option JValue;
  rawCode : option string
}.
End AuthResult.

(** A fetch response: what [response.json()] settles to. *)
Record Response : Type := { json : Exn + JValue }.

(** How the provider SDK, the browser and the backend answer. A handler
    makes each of these calls at most once with given arguments, so a
    function of the arguments describes every possible behaviour. A call
    that resolves with a credential carries a user object
    ([userCredential.user] is not [null]); a call that rejects carries an
    error object with a message. *)
Record Env : Type := {
  auth_createUserWithEmailAndPassword : string → string → Exn + User.t;
  user_updateProfile : User.t → string → option Exn;
  user_sendEmailVerification : User.t → option Exn;
  auth_signInWithEmailAndPassword : string → string → Exn + User.t;
  auth_signInWithPopup : Exn + User.t;
  auth_sendPasswordResetEmail : string → string → option Exn;
  auth_signOut : option Exn;
  auth_currentUser : option User.t;
  user_getIdToken : User.t → Exn + string;
  window_location_origin : string;
  window_fetch : string → list (string * JValue) → Exn + Response
}.

Record Button : Type := { disabled : bool; innerHTML : string }.

Inductive ButtonId : Type := submitBtn | googleSignUpBtn.

(** What a run does that can be observed from outside, in order. *)
Inductive Event : Type :=
| CreateUser (email password : string)
| UpdateProfile (displayName : string)
| SendEmailVerification
| SignIn (email password : string)
| SignInPopup
| SendPasswordResetEmail (email url : string)
| SignOut
| GetIdToken
| Fetch (url : string) (body : list (string * JValue))
| ShowError (message : JValue)
| ShowSuccess (message : string)
| Redirect (href : string) (delay : Z).     (* setTimeout(() => location.href = href, delay) *)

(** The page: its two controls and the trace of events so far. *)
Record World : Type := {
  submit_button : Button;
  google_button : Button;
  events : list Event
}.

Definition page (submit google : Button) : World :=
  {| submit_button := submit; google_button := google; events := [] |}.

Definition button (id : ButtonId) (w : World) : Button :=
  match id with submitBtn => submit_button w | googleSignUpBtn => google_button w end.

Definition set_button (id : ButtonId) (b : Button) (w : World) : World :=
  match id with
  | submitBtn => {| submit_button := b; google_button := google_button w; events := events w |}
  | googleSignUpBtn => {| submit_button := submit_button w; google_button := b; events := events w |}
  end.

(** ** Asynchronous code: state passing with exceptions *)

(** An [async] body run to completion: it settles with a value ([inr]) or
    rejects ([inl]), and leaves a page behind. *)
Definition M (A : Type) : Type := World → (Exn + A) * World.

#[global] Instance M_ret : MRet M := λ A a w, (inr a, w).
#[global] Instance M_bind : MBind M := λ A B f m w,
  match m w with
  | (inr a, w') => f a w'
  | (inl e, w') => (inl e, w')
  end.

Definition throw {A : Type} (e : Exn) : M A := λ w, (inl e, w).

(** [await] of a promise that settles as [r]. *)
Definition await {A : Type} (r : Exn + A) : M A := λ w, (r, w).

Definition await_void (r : option Exn) : M () :=
  match r with Some e => throw e | None => mret () end.

(** [try { body } catch (error) { handler }] *)
Definition try_catch {A : Type} (body : M A) (handler : Exn → M A) : M A := λ w,
  match body w with
  | (inl e, w') => handler e w'
  | settled => settled
  end.

Definition emit (e : Event) : M () := λ w,
  (inr (), {| submit_button := submit_button w; google_button := google_button w;
              events := events w ++ [e] |}).

(** A synchronous step that completes with [r] or throws. *)
Definition settle {A : Type} (r : Exn + A) : M A := λ w, (r, w).

(** Reading [v.key]: a [TypeError] on [undefined] and [null]. The scripts
    read only [success], [error] and [deleted], which no primitive and no
    array has. *)
Definition get (v : JValue) (key : string) : Exn + JValue :=
  match v with
  | JUndefined | JNull => inl TypeError
  | JObj members => inr (property (member members key) key)
  | _ => inr JUndefined
  end.

Definition read (v : JValue) (key : string) : M JValue := settle (get v key).

(** ** Helpers of firebase-config.js *)

Definition dquote : string := String (ascii_of_nat 34) EmptyString.

(** The label of a control while a call is in flight. *)
Definition spinner : string :=
  "<i class=" +:+ dquote +:+ "fas fa-spinner fa-spin" +:+ dquote +:+ "></i> Please wait...".

Definition showLoading (id : ButtonId) : M string := λ w,
  let originalText := innerHTML (button id w) in
  (inr originalText,
   set_button id {| disabled := true;
                    innerHTML := spinner |} w).

Definition hideLoading (id : ButtonId) (originalText : string) : M () := λ w,
  (inr (), set_button id {| disabled := false; innerHTML := originalText |} w).

Definition showError (message : JValue) : M () := emit (ShowError message).

Definition showSuccess (message : string) : M () := emit (ShowSuccess message).

(** [setTimeout(() => { window.location.href = href; }, delay)] *)
Definition redirect_after (href : string) (delay : Z) : M () := emit (Redirect href delay).

(** [result.error] as a value. *)
Definition error_value (result : AuthResult.t) : JValue :=
  default JUndefined (AuthResult.error result).

Section Scripts.

Variable env : Env.

(** *** The provider SDK and the browser, as called by the scripts *)

Definition createUserWithEmailAndPassword (email password : string) : M User.t :=
  emit (CreateUser email password);;
  await (auth_createUserWithEmailAndPassword env email password).

(** [user.updateProfile({displayName})]: on success the user object carries
    the new name. *)
Definition updateProfile (user : User.t) (displayName : string) : M User.t :=
  emit (UpdateProfile displayName);;
  await_void (user_updateProfile env user displayName);;
  mret {| User.uid := User.uid user; User.email := User.email user;
          User.displayName := Some displayName; User.photoURL := User.photoURL user;
          User.emailVerified := User.emailVerified user |}.

Definition sendEmailVerification (user : User.t) : M () :=
  emit SendEmailVerification;;
  await_void (user_sendEmailVerification env user).

Definition signInWithEmailAndPassword (email password : string) : M User.t :=
  emit (SignIn email password);;
  await (auth_signInWithEmailAndPassword env email password).

Definition signInWithPopup : M User.t :=
  emit SignInPopup;;
  await (auth_signInWithPopup env).

Definition sendPasswordResetEmail (email url : string) : M () :=
  emit (SendPasswordResetEmail email url);;
  await_void (auth_sendPasswordResetEmail env email url).

Definition getIdToken (user : User.t) : M string :=
  emit GetIdToken;;
  await (user_getIdToken env user).

Definition fetch (url : string) (body : list (string * JValue)) : M Response :=
  emit (Fetch url body);;
  await (window_fetch env url body).

Definition response_json (response : Response) : M JValue := await (json response).

(** *** Auth Client Wrapper (firebase-config.js) *)

Definition failure (error : Exn) : AuthResult.t :=
  {| AuthResult.success := false; AuthResult.user := None;
     AuthResult.error := Some (getErrorMessage (property_key (code error)));
     AuthResult.rawCode := None |}.

Definition signInWithEmail (email password : string) : M AuthResult.t :=
  try_catch
    (user ← signInWithEmailAndPassword email password;
     mret {| AuthResult.success := true; AuthResult.user := Some user;
             AuthResult.error := None; AuthResult.rawCode := None |})
    (λ error, mret (failure error)).

Definition signUpWithEmail (email password displayName : string) : M AuthResult.t :=
  try_catch
    (user ← createUserWithEmailAndPassword email password;
     user ← (if truthy (JStr displayName) then updateProfile user displayName
             else mret user);
     sendEmailVerification user;;
     mret {| AuthResult.success := true; AuthResult.user := Some user;
             AuthResult.error := None; AuthResult.rawCode := None |})
    (λ error,
       mret {| AuthResult.success := false; AuthResult.user := None;
               AuthResult.error := Some (getErrorMessage (property_key (code error)));
               AuthResult.rawCode := code error |}).

Definition signInWithGoogle : M AuthResult.t :=
  try_catch
    (user ← signInWithPopup;
     mret {| AuthResult.success := true; AuthResult.user := Some user;
             AuthResult.error := None; AuthResult.rawCode := None |})
    (λ error, mret (failure error)).

Definition resetPassword (email : string) : M AuthResult.t :=
  try_catch
    (sendPasswordResetEmail email (window_location_origin env +:+ "/login");;
     mret {| AuthResult.success := true; AuthResult.user := None;
             AuthResult.error := None; AuthResult.rawCode := None |})
    (λ error, mret (failure error)).

Definition signOut : M AuthResult.t :=
  try_catch
    (emit SignOut;;
     await_void (auth_signOut env);;
     mret {| AuthResult.success := true; AuthResult.user := None;
             AuthResult.error := None; AuthResult.rawCode := None |})
    (λ error,
       mret {| AuthResult.success := false; AuthResult.user := None;
               AuthResult.error := Some (JStr (message error));
               AuthResult.rawCode := None |}).

Definition getCurrentUser : M (option User.t) := mret (auth_currentUser env).

(** The token, or [null]. *)
Definition getUserToken : M JValue :=
  user ← getCurrentUser;
  match user with
  | Some u => token ← getIdToken u; mret (JStr token)
  | None => mret JNull
  end.
(** *** Registration page script *)

(** Reading a property of [result.user]: a [TypeError] when it is absent. *)
Definition user_of (result : AuthResult.t) : M User.t :=
  match AuthResult.user result with
  | Some u => mret u
  | None => throw TypeError
  end.

(** The arguments are JavaScript values; one left out at the call is
    [JUndefined]. *)
Definition completeBackendRegistration
    (token email uid name photoURL provider isReregistration : JValue) : M JValue :=
  response ← fetch "/firebase-register"
    (JSON_stringify
       [ ("token", token);
         ("email", email);
         ("uid", uid);
         ("displayName", name);
         ("photoURL", js_or photoURL (JStr EmptyString));
         ("provider", js_or provider (JStr "email"));
         ("is_reregistration", js_or isReregistration (JBool false)) ]);
  response_json response.

Definition already_in_use : string := "auth/email-already-in-use".

(** The try block of the normal registration path. *)
Definition register_normal (name : string) (result : AuthResult.t)
    (originalText : string) : M () :=
  token ← getUserToken;
  u ← user_of result;
  data ← completeBackendRegistration token (nullable_string (User.email u))
           (JStr (User.uid u)) (JStr name) JUndefined JUndefined JUndefined;
  ok ← read data "success";
  if truthy ok then
    showSuccess "Account created successfully! Please verify your email. Redirecting...";;
    redirect_after
      "/login?success=Account created! Please check your email to verify your account." 2000
  else
    hideLoading submitBtn originalText;;
    err ← read data "error";
    showError (js_or err (JStr "Registration failed. Please try again.")).

(** The try block of the recovery branch. *)
Definition register_recovery (name email password : string) (result : AuthResult.t)
    (originalText : string) : M () :=
  checkRes ← fetch "/api/check-deleted-email" (JSON_stringify [("email", JStr email)]);
  checkData ← response_json checkRes;
  deleted ← read checkData "deleted";
  if truthy deleted then
    signInResult ← signInWithEmail email password;
    if AuthResult.success signInResult then
      token ← getUserToken;
      u ← user_of signInResult;
      data ← completeBackendRegistration token (nullable_string (User.email u))
               (JStr (User.uid u)) (JStr name) JNull (JStr "email") (JBool true);
      ok ← read data "success";
      if truthy ok then
        showSuccess "Account re-created successfully! Redirecting...";;
        redirect_after "/dashboard" 1500
      else
        hideLoading submitBtn originalText;;
        err ← read data "error";
        showError (js_or err (JStr "Re-registration failed. Please try again."))
    else
      hideLoading submitBtn originalText;;
      showError (JStr "An account with this email exists. Please sign in or use a different email.")
  else
    hideLoading submitBtn originalText;;
    showError (error_value result).

(** The submit handler of [registerForm]. *)
Definition registerForm_submit (name email password confirmPassword : string) : M () :=
  if negb (String.eqb password confirmPassword) then
    showError (JStr "Passwords do not match!")
  else
    originalText ← showLoading submitBtn;
    result ← signUpWithEmail email password name;
    if AuthResult.success result then
      try_catch (register_normal name result originalText)
        (λ error,
           hideLoading submitBtn originalText;;
           showError (JStr "Network error. Please try again."))
    else if strict_eq (AuthResult.rawCode result) already_in_use then
      try_catch (register_recovery name email password result originalText)
        (λ err,
           hideLoading submitBtn originalText;;
           showError (error_value result))
    else
      hideLoading submitBtn originalText;;
      showError (error_value result).

(** The click handler of [googleSignUpBtn]. *)
Definition googleSignUpBtn_click : M () :=
  originalText ← showLoading googleSignUpBtn;
  result ← signInWithGoogle;
  if AuthResult.success result then
    token ← getUserToken;
    try_catch
      (u ← user_of result;
       response ← fetch "/firebase-register"
         (JSON_stringify
            [ ("token", token);
              ("email", nullable_string (User.email u));
              ("uid", JStr (User.uid u));
              ("displayName", nullable_string (User.displayName u));
              ("photoURL", nullable_string (User.photoURL u));
              ("provider", JStr "google") ]);
       data ← response_json response;
       ok ← read data "success";
       if truthy ok then
         showSuccess "Account created successfully! Redirecting...";;
         redirect_after "/dashboard" 1000
       else
         hideLoading googleSignUpBtn originalText;;
         err ← read data "error";
         showError (js_or err (JStr "Registration failed. Please try again.")))
      (λ error,
         hideLoading googleSignUpBtn originalText;;
         showError (JStr "Network error. Please try again."))
  else
    hideLoading googleSignUpBtn originalText;;
    showError (error_value result).

(** *** Forgot-password page script *)

(** The submit handler of [forgotPasswordForm]. *)
Definition forgotPasswordForm_submit (email : string) : M () :=
  if negb (RegExp_test emailRegex email) then
    showError (JStr "Please enter a valid email address.")
  else
    originalText ← showLoading submitBtn;
    result ← resetPassword email;
    if AuthResult.success result then
      showSuccess "Password reset email sent! Please check your inbox (and spam folder).";;
      redirect_after
        "/login?success=Password reset email sent. Please check your inbox." 2500
    else
      hideLoading submitBtn originalText;;
      showError (error_value result).

End Scripts.

(** ** What the properties below are stated with *)

(** *** The trace of a run *)

Definition shown_errors (w : World) : list JValue :=
  omap (λ ev, match ev with ShowError m => Some m | _ => None end) (events w).

(** The bodies of the requests sent to [url]. *)
Definition requests_to (url : string) (w : World) : list (list (string * JValue)) :=
  omap (λ ev, match ev with
              | Fetch u body => if String.eqb u url then Some body else None
              | _ => None
              end) (events w).

(** A call that leaves the page: to the provider or to the backend. *)
Definition is_network_call (ev : Event) : bool :=
  match ev with
  | ShowError _ | ShowSuccess _ | Redirect _ _ => false
  | _ => true
  end.

Definition is_sign_in (ev : Event) : bool :=
  match ev with SignIn _ _ => true | _ => false end.

(** The control as it was before the submission, enabled. *)
Definition restored (original : Button) : Button :=
  {| disabled := false; innerHTML := innerHTML original |}.

(** How a handler may leave its control once it has settled: untouched (the
    input was rejected before anything was sent), restored after an error
    message, or still showing the spinner while the scheduled redirect is
    pending. *)
Definition settled (id : ButtonId) (original : Button) (w' : World) : Prop :=
  (button id w' = original ∧ filter (λ ev, is_network_call ev = true) (events w') = [])
  ∨ (button id w' = restored original ∧ ∃ m, last (events w') = Some (ShowError m))
  ∨ (∃ href delay, last (events w') = Some (Redirect href delay)).

(** [wp m w Q]: running [m] on the page [w] ends in an outcome and a page
    that satisfy [Q]. *)
Definition wp {A : Type} (m : M A) (w : World) (Q : Exn + A → World → Prop) : Prop :=
  Q (m w).1 (m w).2.

(** *** What the provider and the backend answer *)

(** The user object after the optional profile update. *)
Definition named (u : User.t) (displayName : string) : User.t :=
  if truthy (JStr displayName) then
    {| User.uid := User.uid u; User.email := User.email u;
       User.displayName := Some displayName; User.photoURL := User.photoURL u;
       User.emailVerified := User.emailVerified u |}
  else u.

(** The outcome of the profile update, which is skipped for an empty name. *)
Definition profile_update (env : Env) (u : User.t) (displayName : string) : option Exn :=
  if truthy (JStr displayName) then user_updateProfile env u displayName else None.

(** The account is created and both trailing calls succeed. *)
Definition creation_succeeds (env : Env) (email password displayName : string) (u : User.t) : Prop :=
  ∃ u0, auth_createUserWithEmailAndPassword env email password = inr u0
        ∧ profile_update env u0 displayName = None
        ∧ user_sendEmailVerification env (named u0 displayName) = None
        ∧ u = named u0 displayName.

(** The account-creation call is rejected with the raw code [c]. *)
Definition creation_fails_with (env : Env) (email password c : string) : Prop :=
  ∃ e, auth_createUserWithEmailAndPassword env email password = inl e ∧ code e = Some c.

(** The backend answers the deleted-email query for [email] with an object
    whose [deleted] member reads as [v]. *)
Definition check_deleted_answers (env : Env) (email : string) (v : JValue) : Prop :=
  ∃ resp data, window_fetch env "/api/check-deleted-email" [("email", JStr email)] = inr resp
               ∧ json resp = inr data ∧ get data "deleted" = inr v.

(** No request to [url] delivers a parsed response: the fetch rejects or the
    body cannot be read. *)
Definition backend_call_fails (env : Env) (url : string) : Prop :=
  ∀ body, match window_fetch env url body with
          | inl _ => True
          | inr resp => match json resp with inl _ => True | inr _ => False end
          end.

(** The bearer token is retrieved: [tok] is [null] when nobody is signed in. *)
Definition token_retrieved (env : Env) (tok : JValue) : Prop :=
  match auth_currentUser env with
  | None => tok = JNull
  | Some u => ∃ t, user_getIdToken env u = inr t ∧ tok = JStr t
  end.

(** *** The wrapper's operations that return an AuthResult *)

Inductive AuthOp : Type :=
| OpSignInWithEmail (email password : string)
| OpSignUpWithEmail (email password displayName : string)
| OpSignInWithGoogle
| OpResetPassword (email : string)
| OpSignOut.

Definition run_op (env : Env) (op : AuthOp) : M AuthResult.t :=
  match op with
  | OpSignInWithEmail email password => signInWithEmail env email password
  | OpSignUpWithEmail email password displayName => signUpWithEmail env email password displayName
  | OpSignInWithGoogle => signInWithGoogle env
  | OpResetPassword email => resetPassword env email
  | OpSignOut => signOut env
  end.

(** The operations that have a user to return. *)
Definition returns_user (op : AuthOp) : bool :=
  match op with
  | OpResetPassword _ | OpSignOut => false
  | _ => true
  end.

(** *** The shape [local@domain.tld], in the specification's words *)

(** A character that is neither white space nor the at sign. *)
Definition plain_char (a : ascii) : Prop :=
  is_whitespace (N_of_ascii a) = false ∧ N_of_ascii a ≠ 64%N.

(** A non-empty run of such characters. *)
Definition plain_part (s : string) : Prop :=
  s ≠ EmptyString ∧ Forall plain_char (String.list_ascii_of_string s).

Definition local_at_domain_tld (email : string) : Prop :=
  ∃ local_part domain tld,
    plain_part local_part ∧ plain_part domain ∧ plain_part tld
    ∧ email = local_part +:+ "@" +:+ domain +:+ "." +:+ tld.

(** *** The language of a regular expression *)

Inductive Matches : Regex → list N → Prop :=
| MEps : Matches REps []
| MChar c : Matches (RChar c) [c]
| MClass negated atoms u :
    class_has negated atoms u = true → Matches (RClass negated atoms) [u]
| MSeq r1 r2 s1 s2 :
    Matches r1 s1 → Matches r2 s2 → Matches (RSeq r1 r2) (s1 ++ s2)
| MAltL r1 r2 s : Matches r1 s → Matches (RAlt r1 r2) s
| MAltR r1 r2 s : Matches r2 s → Matches (RAlt r1 r2) s
| MStarNil r : Matches (RStar r) []
| MStarApp r s1 s2 :
    Matches r s1 → Matches (RStar r) s2 → Matches (RStar r) (s1 ++ s2)
| MPlus r s1 s2 :
    Matches r s1 → Matches (RStar r) s2 → Matches (RPlus r) (s1 ++ s2).

(** *** Concrete users, errors and environments *)

Definition alice : User.t :=
  {| User.uid := "uid-alice"; User.email := Some "alice@example.com";
     User.displayName := None; User.photoURL := None; User.emailVerified := false |}.

Definition email_in_use : Exn :=
  {| code := Some "auth/email-already-in-use"; message := "The email address is already in use." |}.

Definition network_failed : Exn :=
  {| code := Some "auth/network-request-failed"; message := "A network error has occurred." |}.

Definition wrong_password : Exn :=
  {| code := Some "auth/wrong-password"; message := "The password is invalid." |}.

Definition failed_to_fetch : Exn := {| code := None; message := "Failed to fetch" |}.

Definition ok_response (data : JValue) : Response := {| json := inr data |}.

(** An environment built from the answers that vary between the examples;
    the profile update, the password-reset mail and the sign-out succeed. *)
Definition example_env
    (create : Exn + User.t) (verification : option Exn)
    (sign_in popup : Exn + User.t) (token : Exn + string)
    (backend : string → Exn + Response) : Env :=
  {| auth_createUserWithEmailAndPassword := λ _ _, create;
     user_updateProfile := λ _ _, None;
     user_sendEmailVerification := λ _, verification;
     auth_signInWithEmailAndPassword := λ _ _, sign_in;
     auth_signInWithPopup := popup;
     auth_sendPasswordResetEmail := λ _ _, None;
     auth_signOut := None;
     auth_currentUser := Some alice;
     user_getIdToken := λ _, token;
     window_location_origin := "https://stroke.example";
     window_fetch := λ url _, backend url |}.

(** The backend accepts registrations and reports the email as soft-deleted
    or not. *)
Definition backend_ok (deleted : bool) (url : string) : Exn + Response :=
  if String.eqb url "/api/check-deleted-email"
  then inr (ok_response (JObj [("deleted", JBool deleted)]))
  else inr (ok_response (JObj [("success", JBool true)])).

Definition backend_down (url : string) : Exn + Response := inl failed_to_fetch.

Definition idle : Button := {| disabled := false; innerHTML := "Create Account" |}.

(** Everything succeeds. *)
Definition env_happy : Env :=
  example_env (inr alice) None (inr alice) (inr alice) (inr "token-1") (backend_ok false).

(** The account is created, the verification mail cannot be sent. *)
Definition env_verification_fails : Env :=
  example_env (inr alice) (Some network_failed) (inr alice) (inr alice) (inr "token-1")
    (backend_ok false).

(** The email is taken at the provider; the backend says whether it was
    soft-deleted; signing in with the submitted password works. *)
Definition env_in_use (deleted : bool) : Env :=
  example_env (inl email_in_use) None (inr alice) (inr alice) (inr "token-1")
    (backend_ok deleted).

(** The email is taken and the backend cannot be reached. *)
Definition env_in_use_offline : Env :=
  example_env (inl email_in_use) None (inr alice) (inr alice) (inr "token-1") backend_down.

(** The email is taken and was soft-deleted; the submitted password is not
    the account's. *)
Definition env_recovery_wrong_password : Env :=
  example_env (inl email_in_use) None (inl wrong_password) (inr alice) (inr "token-1")
    (backend_ok true).

(** The email is taken and was soft-deleted, the sign-in works, the token
    cannot be fetched. *)
Definition env_recovery_token_fails : Env :=
  example_env (inl email_in_use) None (inr alice) (inr alice) (inl network_failed)
    (backend_ok true).

(** The Google pop-up succeeds, the token cannot be fetched. *)
Definition env_google_token_fails : Env :=
  example_env (inr alice) None (inr alice) (inr alice) (inl network_failed)
    (backend_ok false).

(** The account is created, the backend cannot be reached. *)
Definition env_created_offline : Env :=
  example_env (inr alice) None (inr alice) (inr alice) (inr "token-1") backend_down.

(** The backend reports the email as soft-deleted, then cannot be reached. *)
Definition backend_register_down (url : string) : Exn + Response :=
  if String.eqb url "/api/check-deleted-email"
  then inr (ok_response (JObj [("deleted", JBool true)]))
  else inl failed_to_fetch.

Definition env_recovery_register_offline : Env :=
  example_env (inl email_in_use) None (inr alice) (inr alice) (inr "token-1")
    backend_register_down.

(** The seven members of a registration request. *)
Definition registration_fields : list string :=
  ["token"; "email"; "uid"; "displayName"; "photoURL"; "provider"; "is_reregistration"].

(** The request of the Google sign-up for [alice]. *)
Definition google_request_alice : list (string * JValue) :=
  [ ("token", JStr "token-1"); ("email", JStr "alice@example.com");
    ("uid", JStr "uid-alice"); ("displayName", JNull); ("photoURL", JNull);
    ("provider", JStr "google") ].

(** The request of the recovery branch for the user [u]. *)
Definition reregistration_request (tok : JValue) (u : User.t) (name : string)
    : list (string * JValue) :=
  [ ("token", tok); ("email", nullable_string (User.email u));
    ("uid", JStr (User.uid u)); ("displayName", JStr name);
    ("photoURL", JStr EmptyString); ("provider", JStr "email");
    ("is_reregistration", JBool true) ].

(** ** The rest of firebase-config.js *)



(** The item the auth-state listener stores for [user]: the JSON text of the
    profile, as the members it holds. *)
Definition firebaseUser_item (user : User.t) : list (string * JValue) :=
  JSON_stringify
    [ ("uid", JStr (User.uid user));
      ("email", nullable_string (User.email user));
      ("displayName", nullable_string (User.displayName user));
      ("emailVerified", JBool (User.emailVerified user));
      ("photoURL", nullable_string (User.photoURL user)) ].

(** The callback given to [auth.onAuthStateChanged], run on a report of the
    provider ([None] for signed out); [sessionStorage] maps a key to the item
    stored under it. *)
Definition onAuthStateChanged (user : option User.t)
    (sessionStorage : gmap string (list (string * JValue)))
    : gmap string (list (string * JValue)) :=
  match user with
  | Some u => <["firebaseUser" := firebaseUser_item u]> sessionStorage
  | None => delete "firebaseUser" sessionStorage
  end.

(** The listener run on the reports of the provider, one after the other. *)
Definition auth_state_reports (reports : list (option User.t))
    (sessionStorage : gmap string (list (string * JValue)))
    : gmap string (list (string * JValue)) :=
  foldl (λ storage user, onAuthStateChanged user storage) sessionStorage reports.

(** ** Theme toggle (class [ThemeManager]) *)

Module ThemeManager.

(** The [.theme-toggle] element: the text of its label and the class of its
    icon, [None] for a part the element does not have. *)
Record Toggle : Type := { label : option string; icon : option string }.

(** What the class reads and writes outside itself. *)
Record Page : Type := {
  localStorage : gmap string string;
  data_theme : option string;       (* body[data-theme] *)
  theme_color : option string;      (* content of meta[name=theme-color], if there is one *)
  toggle : option Toggle;           (* document.querySelector('.theme-toggle') *)
  themechange : list string         (* the themes of the themechange events dispatched *)
}.

(** The object ([this.theme]) together with the page it lives in. *)
Record State : Type := { theme : string; page : Page }.

(** [s || d] for a string [s] that may be [null]. *)
Definition or_default (s : option string) (d : string) : string :=
  match s with
  | Some s => if String.eqb s EmptyString then d else s
  | None => d
  end.

Definition label_of (theme : string) : string :=
  if String.eqb theme "dark" then "Dark" else "Light".

Definition icon_of (theme : string) : string :=
  "fas fa-" +:+ (if String.eqb theme "dark" then "moon" else "sun").

Definition color_of (theme : string) : string :=
  if String.eqb theme "dark" then "#0B1120" else "#F8FAFC".

Definition applyTheme (theme : string) (p : Page) : Page :=
  {| localStorage := localStorage p;
     data_theme := Some theme;
     theme_color := Some (color_of theme);
     toggle := toggle p;
     themechange := themechange p |}.

Definition createToggleButton (theme : string) (p : Page) : Page :=
  match toggle p with
  | Some _ => p
  | None =>
      {| localStorage := localStorage p;
         data_theme := data_theme p;
         theme_color := theme_color p;
         toggle := Some {| label := Some (label_of theme); icon := Some (icon_of theme) |};
         themechange := themechange p |}
  end.

Definition updateToggleButton (theme : string) (p : Page) : Page :=
  match toggle p with
  | None => p
  | Some t =>
      {| localStorage := localStorage p;
         data_theme := data_theme p;
         theme_color := theme_color p;
         toggle := Some {| label := (λ _, label_of theme) <$> label t;
                           icon := (λ _, icon_of theme) <$> icon t |};
         themechange := themechange p |}
  end.

(** [new ThemeManager()]: the constructor and [init]. *)
Definition new (p : Page) : State :=
  let theme := or_default (localStorage p !! "theme") "dark" in
  {| theme := theme; page := createToggleButton theme (applyTheme theme p) |}.

Definition toggleTheme (s : State) : State :=
  let theme := if String.eqb (theme s) "dark" then "light" else "dark" in
  let p := updateToggleButton theme (applyTheme theme (page s)) in
  {| theme := theme;
     page := {| localStorage := <["theme" := theme]> (localStorage p);
                data_theme := data_theme p;
                theme_color := theme_color p;
                toggle := toggle p;
                themechange := themechange p ++ [theme] |} |}.

(** The listener of the window's storage event, with [e.key] and
    [e.newValue]. *)
Definition storage_listener (key newValue : option string) (s : State) : State :=
  if bool_decide (key = Some "theme") then
    let theme := or_default newValue "dark" in
    {| theme := theme; page := updateToggleButton theme (applyTheme theme (page s)) |}
  else s.

Definition getTheme (s : State) : string := theme s.





End ThemeManager.

(** ** More of what the properties are stated with *)

(** The redirects a run has scheduled. *)
Definition scheduled_redirects (w : World) : list (string * Z) :=
  omap (λ ev, match ev with Redirect href delay => Some (href, delay) | _ => None end)
       (events w).

(** A call to the provider's authentication SDK. *)
Definition is_provider_call (ev : Event) : bool :=
  match ev with
  | CreateUser _ _ | UpdateProfile _ | SendEmailVerification | SignIn _ _
  | SignInPopup | SendPasswordResetEmail _ _ | SignOut => true
  | _ => false
  end.

(** The backend answers every request to [url] with the JSON value [data]. *)
Definition backend_replies (env : Env) (url : string) (data : JValue) : Prop :=
  ∀ body, ∃ resp, window_fetch env url body = inr resp ∧ json resp = inr data.

(** The request of the normal registration path for the user [u]. *)
Definition registration_request (tok : JValue) (u : User.t) (name : string)
    : list (string * JValue) :=
  [ ("token", tok); ("email", nullable_string (User.email u));
    ("uid", JStr (User.uid u)); ("displayName", JStr name);
    ("photoURL", JStr EmptyString); ("provider", JStr "email");
    ("is_reregistration", JBool false) ].

(** The request of the Google sign-up for the user [u]. *)
Definition google_request (tok : JValue) (u : User.t) : list (string * JValue) :=
  [ ("token", tok); ("email", nullable_string (User.email u));
    ("uid", JStr (User.uid u));
    ("displayName", nullable_string (User.displayName u));
    ("photoURL", nullable_string (User.photoURL u));
    ("provider", JStr "google") ].

(** The calls [signUpWithEmail] makes when all of them succeed. *)
Definition signUp_calls (email password displayName : string) : list Event :=
  CreateUser email password
  :: (if truthy (JStr displayName) then [UpdateProfile displayName] else [])
  ++ [SendEmailVerification].

(** The backend answers every request with the given JSON value. *)
Definition backend_says (data : JValue) (url : string) : Exn + Response :=
  inr (ok_response data).

(** The pop-up is closed by the user. *)
Definition popup_closed : Exn :=
  {| code := Some "auth/popup-closed-by-user"; message := "The popup has been closed." |}.

Definition weak_password : Exn :=
  {| code := Some "auth/weak-password"; message := "Password should be at least 6 characters." |}.

Definition user_not_found : Exn :=
  {| code := Some "auth/user-not-found"; message := "There is no user record for this email." |}.

(** The account is created and the backend answers [data] to everything. *)
Definition env_backend_says (data : JValue) : Env :=
  example_env (inr alice) None (inr alice) (inr alice) (inr "token-1") (backend_says data).

(** The password is too weak for the provider. *)
Definition env_weak_password : Env :=
  example_env (inl weak_password) None (inr alice) (inr alice) (inr "token-1")
    (backend_ok false).

(** The user closes the Google pop-up. *)
Definition env_popup_closed : Env :=
  example_env (inr alice) None (inr alice) (inl popup_closed) (inr "token-1")
    (backend_ok false).

(** The provider knows no account for the address of a password reset. *)
Definition env_reset_fails : Env :=
  {| auth_createUserWithEmailAndPassword := λ _ _, inr alice;
     user_updateProfile := λ _ _, None;
     user_sendEmailVerification := λ _, None;
     auth_signInWithEmailAndPassword := λ _ _, inr alice;
     auth_signInWithPopup := inr alice;
     auth_sendPasswordResetEmail := λ _ _, Some user_not_found;
     auth_signOut := None;
     auth_currentUser := None;
     user_getIdToken := λ _, inr "token-1";
     window_location_origin := "https://stroke.example";
     window_fetch := λ url _, backend_ok false url |}.

(** * Properties *)

Arguments getErrorMessage : simpl never.
Arguments RegExp_test : simpl never.

(** ** The error translator *)

Example getErrorMessage_weak_password :
  getErrorMessage "auth/weak-password" = JStr "Password should be at least 6 characters long.".
Proof. reflexivity. Qed.

Example getErrorMessage_undefined_code :
  getErrorMessage (property_key None) = JStr fallback_message.
Proof. reflexivity. Qed.

Lemma errorMessages_entries_truthy :
  Forall (λ kv, truthy (JStr kv.2) = true) errorMessages_entries.
Proof. repeat constructor. Qed.

(** A code of the table is translated to exactly its text. *)
Lemma getErrorMessage_table (errorCode text : string) :
  errorMessages !! errorCode = Some text → getErrorMessage errorCode = JStr text.
Proof.
  intros Hin. unfold getErrorMessage. rewrite Hin. cbn [fmap option_fmap option_map property].
  apply elem_of_list_to_map_2 in Hin.
  pose proof errorMessages_entries_truthy as Hall.
  rewrite Forall_forall in Hall. specialize (Hall _ Hin).
  unfold js_or. cbn [snd] in Hall. by rewrite Hall.
Qed.

(** A string that is neither in the table nor the name of an inherited
    member is translated to the fallback. *)
Lemma getErrorMessage_unknown (errorCode : string) :
  errorMessages !! errorCode = None → errorCode ∉ Object_prototype →
  getErrorMessage errorCode = JStr fallback_message.
Proof.
  intros Hout Hproto. unfold getErrorMessage. rewrite Hout.
  cbn [fmap option_fmap option_map property].
  by rewrite bool_decide_eq_false_2.
Qed.

(** The name of an inherited member is translated to that member. *)
Lemma getErrorMessage_inherited (errorCode : string) :
  errorCode ∈ Object_prototype → getErrorMessage errorCode = JInherited errorCode.
Proof.
  unfold Object_prototype. rewrite !elem_of_cons, elem_of_nil.
  intros H. repeat (destruct H as [-> | H]; [reflexivity |]). destruct H.
Qed.

(** C9 (defect). The translator does not return the fallback for every
    string outside its table: ["constructor"] is not a key of the table, yet
    [getErrorMessage] returns the member inherited from [Object.prototype],
    which is not even a string. *)
Theorem getErrorMessage_constructor :
  errorMessages !! "constructor" = None
  ∧ getErrorMessage "constructor" = JInherited "constructor"
  ∧ getErrorMessage "constructor" ≠ JStr fallback_message.
Proof. split; [by vm_compute |]. split; [by vm_compute | by vm_compute]. Qed.

(** ** The email pattern *)

Section RegexCorrect.

Lemma nullable_Matches (r : Regex) : nullable r = true ↔ Matches r [].
Proof.
  split.
  - induction r; simpl; intros Hn; try discriminate.
    + constructor.
    + apply andb_prop in Hn as [H1 H2].
      change (@nil N) with (@nil N ++ [])%list. constructor; auto.
    + apply orb_prop in Hn as [H | H]; [apply MAltL | apply MAltR]; auto.
    + constructor.
    + change (@nil N) with (@nil N ++ [])%list. constructor; [auto | constructor].
  - intros H. remember [] as s eqn:Hs.
    induction H; simpl; try discriminate; try reflexivity.
    + apply List.app_eq_nil in Hs as [-> ->].
      rewrite IHMatches1, IHMatches2; auto.
    + rewrite IHMatches; auto.
    + rewrite IHMatches; auto using orb_true_r.
    + apply List.app_eq_nil in Hs as [-> ->]. auto.
Qed.

Lemma residual_sound (u : N) (r : Regex) :
  ∀ s, Matches (residual u r) s → Matches r (u :: s).
Proof.
  induction r; simpl; intros s H.
  - inversion H.
  - inversion H.
  - destruct (c =? u)%N eqn:E; inversion H; subst.
    apply N.eqb_eq in E as ->. constructor.
  - destruct (class_has negated atoms u) eqn:E; inversion H; subst.
    by constructor.
  - destruct (nullable r1) eqn:E.
    + inversion H as [| | | | ? ? ? H' | ? ? ? H' | | |]; subst.
      * inversion H'; subst. change (u :: s1 ++ s2)%list with ((u :: s1) ++ s2)%list.
        constructor; auto.
      * change (u :: s) with ([] ++ u :: s)%list. constructor; auto.
        by apply nullable_Matches.
    + inversion H; subst. change (u :: s1 ++ s2)%list with ((u :: s1) ++ s2)%list.
      constructor; auto.
  - inversion H; subst; [apply MAltL | apply MAltR]; auto.
  - inversion H; subst. change (u :: s1 ++ s2)%list with ((u :: s1) ++ s2)%list.
    constructor; auto.
  - inversion H; subst. change (u :: s1 ++ s2)%list with ((u :: s1) ++ s2)%list.
    constructor; auto.
Qed.

Lemma residual_complete (r : Regex) (us : list N) :
  Matches r us → ∀ u s, us = u :: s → Matches (residual u r) s.
Proof.
  induction 1 as [| c | negated atoms c Hc | r1 r2 s1 s2 H1 IH1 H2 IH2
                  | r1 r2 s0 H1 IH1 | r1 r2 s0 H2 IH2 | r
                  | r s1 s2 H1 IH1 H2 IH2 | r s1 s2 H1 IH1 H2 IH2];
    intros u s Heq; simpl.
  - discriminate.
  - injection Heq as -> <-. rewrite N.eqb_refl. constructor.
  - injection Heq as -> <-. rewrite Hc. constructor.
  - destruct s1 as [| a s1']; simpl in Heq.
    + apply nullable_Matches in H1. rewrite H1. apply MAltR. auto.
    + injection Heq as -> <-.
      destruct (nullable r1); [apply MAltL |]; constructor; auto.
  - apply MAltL; auto.
  - apply MAltR; auto.
  - discriminate.
  - destruct s1 as [| a s1']; simpl in Heq.
    + apply (IH2 _ _ Heq).
    + injection Heq as -> <-. constructor; auto.
  - destruct s1 as [| a s1']; simpl in Heq.
    + apply (IH2 _ _ Heq).
    + injection Heq as -> <-. constructor; auto.
Qed.

(** The matcher decides the language of the pattern. *)
Lemma matches_Matches (s : list N) : ∀ r, matches r s = true ↔ Matches r s.
Proof.
  induction s as [| u s IH]; intros r; simpl.
  - apply nullable_Matches.
  - rewrite IH. split; [apply residual_sound |].
    intros H. by eapply residual_complete.
Qed.

Variables (negated : bool) (atoms : list ClassAtom).

Lemma Matches_star_class (s : list N) :
  Matches (RStar (RClass negated atoms)) s
  ↔ Forall (λ u, class_has negated atoms u = true) s.
Proof.
  split.
  - intros H. remember (RStar (RClass negated atoms)) as r eqn:Hr.
    induction H; try discriminate; [constructor |].
    injection Hr as ->. inversion H; subst. constructor; auto.
  - induction 1 as [| u s Hu _ IH]; [constructor |].
    change (u :: s) with ([u] ++ s)%list. constructor; [by constructor | done].
Qed.

Lemma Matches_plus_class (s : list N) :
  Matches (RPlus (RClass negated atoms)) s
  ↔ s ≠ [] ∧ Forall (λ u, class_has negated atoms u = true) s.
Proof.
  split.
  - intros H. inversion H as [| | | | | | | | ? ? ? H1 H2]; subst.
    inversion H1; subst. apply Matches_star_class in H2.
    split; [discriminate | by constructor].
  - intros [Hne Hall]. destruct Hall as [| u s Hu Hall]; [done |].
    change (u :: s) with ([u] ++ s)%list.
    constructor; [by constructor | by apply Matches_star_class].
Qed.

End RegexCorrect.

Lemma not_space_or_at_has (u : N) :
  class_has true [ClassSpace; ClassChar 64] u = true
  ↔ is_whitespace u = false ∧ u ≠ 64%N.
Proof.
  unfold class_has. cbn [existsb atom_has]. rewrite orb_false_r.
  destruct (is_whitespace u); destruct (N.eqb_spec 64 u) as [<- | Hne];
    cbn [orb xorb negb]; split; try done; try (intros [? ?]; done).
Qed.

(** The words the pattern matches, as lists of code units. *)
Lemma Matches_emailRegex (s : list N) :
  Matches emailRegex s
  ↔ ∃ l d t : list N,
      (l ≠ [] ∧ Forall (λ u, is_whitespace u = false ∧ u ≠ 64%N) l)
      ∧ (d ≠ [] ∧ Forall (λ u, is_whitespace u = false ∧ u ≠ 64%N) d)
      ∧ (t ≠ [] ∧ Forall (λ u, is_whitespace u = false ∧ u ≠ 64%N) t)
      ∧ s = (l ++ 64%N :: d ++ 46%N :: t)%list.
Proof.
  assert (Hpart : ∀ p : list N,
            Matches (RPlus not_space_or_at) p
            ↔ p ≠ [] ∧ Forall (λ u, is_whitespace u = false ∧ u ≠ 64%N) p).
  { intros p. unfold not_space_or_at. rewrite Matches_plus_class.
    apply and_iff_compat_l. apply Forall_proper; [| done].
    intros u. apply not_space_or_at_has. }
  unfold emailRegex. split.
  - intros H.
    inversion H as [| | | ? ? l r1 Hl H1 | | | | |]; subst.
    inversion H1 as [| | | ? ? a r2 Ha H2 | | | | |]; subst.
    inversion Ha; subst.
    inversion H2 as [| | | ? ? d r3 Hd H3 | | | | |]; subst.
    inversion H3 as [| | | ? ? b t Hb Ht | | | | |]; subst.
    inversion Hb; subst.
    exists l, d, t. rewrite <- !Hpart. done.
  - intros (l & d & t & Hl & Hd & Ht & ->).
    constructor; [by apply Hpart |].
    change (64%N :: d ++ 46%N :: t)%list with ([64%N] ++ (d ++ [46%N] ++ t))%list.
    constructor; [constructor |].
    constructor; [by apply Hpart |].
    constructor; [constructor | by apply Hpart].
Qed.

Lemma code_units_app (s1 s2 : string) :
  code_units (s1 +:+ s2) = (code_units s1 ++ code_units s2)%list.
Proof.
  induction s1 as [| a s1 IH]; [done |].
  change (code_units (String a s1 +:+ s2)) with (N_of_ascii a :: code_units (s1 +:+ s2)).
  by rewrite IH.
Qed.

Lemma code_units_nil (s : string) : code_units s = [] ↔ s = EmptyString.
Proof. destruct s; simpl; split; done. Qed.

Lemma code_units_split (l1 l2 : list N) :
  ∀ s, code_units s = (l1 ++ l2)%list →
       ∃ s1 s2, s = s1 +:+ s2 ∧ code_units s1 = l1 ∧ code_units s2 = l2.
Proof.
  induction l1 as [| u l1 IH]; intros s Hs.
  - by exists EmptyString, s.
  - destruct s as [| a s]; [discriminate |].
    unfold code_units in Hs. simpl in Hs. injection Hs as Ha Hs.
    destruct (IH s Hs) as (s1 & s2 & -> & H1 & H2).
    exists (String a s1), s2.
    change (code_units (String a s1)) with (N_of_ascii a :: code_units s1).
    by rewrite H1, Ha.
Qed.

Lemma code_units_cons (u : N) (l : list N) (s : string) :
  code_units s = u :: l →
  ∃ a s', s = String a s' ∧ N_of_ascii a = u ∧ code_units s' = l.
Proof.
  destruct s as [| a s]; [discriminate |].
  unfold code_units. simpl. intros [= Ha Hs]. by exists a, s.
Qed.

Lemma plain_part_code_units (s : string) :
  plain_part s
  ↔ code_units s ≠ [] ∧ Forall (λ u, is_whitespace u = false ∧ u ≠ 64%N) (code_units s).
Proof.
  unfold plain_part. rewrite code_units_nil. apply and_iff_compat_l.
  unfold code_units. by rewrite Forall_fmap.
Qed.

(** The pattern of the forgot-password page accepts exactly the strings of
    the shape [local@domain.tld]. *)
Lemma emailRegex_shape (email : string) :
  RegExp_test emailRegex email = true ↔ local_at_domain_tld email.
Proof.
  unfold RegExp_test. rewrite matches_Matches, Matches_emailRegex. split.
  - intros (l & d & t & Hl & Hd & Ht & Heq).
    apply code_units_split in Heq as (sl & rest & -> & Hsl & Hrest).
    apply code_units_cons in Hrest as (a & rest' & -> & Ha & Hrest).
    apply code_units_split in Hrest as (sd & rest & -> & Hsd & Hrest).
    apply code_units_cons in Hrest as (b & st & -> & Hb & Hst).
    assert (a = "@"%char) as ->.
    { rewrite <- (ascii_N_embedding a), Ha. reflexivity. }
    assert (b = "."%char) as ->.
    { rewrite <- (ascii_N_embedding b), Hb. reflexivity. }
    exists sl, sd, st. rewrite !plain_part_code_units, Hsl, Hsd, Hst. done.
  - intros (sl & sd & st & Hl & Hd & Ht & ->).
    exists (code_units sl), (code_units sd), (code_units st).
    apply plain_part_code_units in Hl, Hd, Ht.
    do 3 (split; [done |]).
    by rewrite !code_units_app.
Qed.

Lemma emailRegex_rejects (email : string) :
  RegExp_test emailRegex email = false ↔ ¬ local_at_domain_tld email.
Proof. rewrite <- emailRegex_shape. by destruct (RegExp_test emailRegex email). Qed.

(** ** The Auth Client Wrapper *)

Ltac unfold_scripts :=
  unfold registerForm_submit, googleSignUpBtn_click, forgotPasswordForm_submit,
    register_normal, register_recovery, completeBackendRegistration, run_op,
    signUpWithEmail, signInWithEmail, signInWithGoogle, resetPassword, signOut,
    getUserToken, getCurrentUser, user_of, createUserWithEmailAndPassword,
    updateProfile, sendEmailVerification, signInWithEmailAndPassword,
    signInWithPopup, sendPasswordResetEmail, getIdToken, fetch, response_json,
    read, showError, showSuccess, redirect_after, hideLoading, showLoading,
    failure, error_value;
  unfold try_catch, emit, await, await_void, settle, throw, mbind, M_bind, mret, M_ret.

(** C1 (as the code has it). When the account-creation call succeeds, the
    AuthResult reports success only if the trailing calls succeed as well;
    when a trailing call (display-name update, verification-email send)
    fails, the AuthResult is a failure that carries the translated message
    and the raw code of that call. When the account-creation call fails, the
    AuthResult is a failure that preserves the raw provider code in
    [rawCode]. *)
Theorem signUpWithEmail_result (env : Env) (email password displayName : string) (w : World) :
  (∀ u, creation_succeeds env email password displayName u →
        (signUpWithEmail env email password displayName w).1
        = inr {| AuthResult.success := true; AuthResult.user := Some u;
                 AuthResult.error := None; AuthResult.rawCode := None |})
  ∧ (∀ u0 e, auth_createUserWithEmailAndPassword env email password = inr u0 →
       profile_update env u0 displayName = Some e
       ∨ (profile_update env u0 displayName = None
          ∧ user_sendEmailVerification env (named u0 displayName) = Some e) →
       (signUpWithEmail env email password displayName w).1
       = inr {| AuthResult.success := false; AuthResult.user := None;
                AuthResult.error := Some (getErrorMessage (property_key (code e)));
                AuthResult.rawCode := code e |})
  ∧ (∀ e, auth_createUserWithEmailAndPassword env email password = inl e →
       (signUpWithEmail env email password displayName w).1
       = inr {| AuthResult.success := false; AuthResult.user := None;
                AuthResult.error := Some (getErrorMessage (property_key (code e)));
                AuthResult.rawCode := code e |}).
Proof.
  split; [| split].
  - intros u (u0 & Hc & Hp & Hv & ->). revert Hp Hv. unfold profile_update, named.
    unfold_scripts. rewrite Hc. cbn.
    destruct (negb (String.eqb displayName EmptyString)); cbn; intros Hp Hv.
    + rewrite Hp. cbn. rewrite Hv. reflexivity.
    + rewrite Hv. reflexivity.
  - intros u0 e Hc. unfold profile_update, named.
    unfold_scripts. rewrite Hc. cbn.
    destruct (negb (String.eqb displayName EmptyString)); cbn.
    + intros [Hp | [Hp Hv]]; rewrite Hp; cbn; [reflexivity |].
      rewrite Hv. reflexivity.
    + intros [Hp | [_ Hv]]; [discriminate |]. rewrite Hv. reflexivity.
  - intros e Hc. unfold_scripts. rewrite Hc. reflexivity.
Qed.

Lemma signUpWithEmail_result_witness :
  (creation_succeeds env_happy "alice@example.com" "secret1" "Alice" (named alice "Alice")
   ∧ (signUpWithEmail env_happy "alice@example.com" "secret1" "Alice" (page idle idle)).1
     = inr {| AuthResult.success := true; AuthResult.user := Some (named alice "Alice");
              AuthResult.error := None; AuthResult.rawCode := None |})
  ∧ (user_sendEmailVerification env_verification_fails (named alice "Alice")
     = Some network_failed
     ∧ (signUpWithEmail env_verification_fails "alice@example.com" "secret1" "Alice"
          (page idle idle)).1
       = inr {| AuthResult.success := false; AuthResult.user := None;
                AuthResult.error := Some (JStr "Network error. Please check your connection.");
                AuthResult.rawCode := Some "auth/network-request-failed" |})
  ∧ (auth_createUserWithEmailAndPassword (env_in_use false) "alice@example.com" "secret1"
     = inl email_in_use
     ∧ (signUpWithEmail (env_in_use false) "alice@example.com" "secret1" "Alice"
          (page idle idle)).1
       = inr {| AuthResult.success := false; AuthResult.user := None;
                AuthResult.error :=
                  Some (JStr "This email is already registered. Please sign in instead.");
                AuthResult.rawCode := Some "auth/email-already-in-use" |}).
Proof.
  assert (Hc : creation_succeeds env_happy "alice@example.com" "secret1" "Alice"
                 (named alice "Alice")).
  { exists alice. repeat split; reflexivity. }
  split; [| split].
  - split; [exact Hc |].
    apply (signUpWithEmail_result env_happy "alice@example.com" "secret1" "Alice"
             (page idle idle)). exact Hc.
  - split; [reflexivity |].
    apply (proj1 (proj2 (signUpWithEmail_result env_verification_fails
             "alice@example.com" "secret1" "Alice" (page idle idle))) alice network_failed).
    + reflexivity.
    + right. split; reflexivity.
  - split; [reflexivity |].
    apply (proj2 (proj2 (signUpWithEmail_result (env_in_use false)
             "alice@example.com" "secret1" "Alice" (page idle idle))) email_in_use).
    reflexivity.
Defined.

(** C1 as stated fails: the account is created, the verification mail
    cannot be sent, and the AuthResult reports a failure. *)
Lemma signUpWithEmail_created_yet_failure :
  auth_createUserWithEmailAndPassword env_verification_fails "alice@example.com" "secret1"
  = inr alice
  ∧ ∃ r, (signUpWithEmail env_verification_fails "alice@example.com" "secret1" "Alice"
            (page idle idle)).1 = inr r
         ∧ AuthResult.success r = false.
Proof. split; [reflexivity |]. eexists. split; reflexivity. Qed.

(** The wrapper never throws to its caller. *)
Lemma run_op_settles (env : Env) (op : AuthOp) (w : World) :
  ∃ r w', run_op env op w = (inr r, w').
Proof.
  destruct op; unfold_scripts; cbn;
    repeat (case_match; simplify_eq/=); eauto.
Qed.

(** C2 (as the code has it). Every operation returns an AuthResult in which
    success = true implies that the error is absent, and that the user is
    present exactly for signInWithEmail, signUpWithEmail and
    signInWithGoogle (resetPassword and signOut return no user); and
    success = false implies that the error is present and the user is
    absent. *)
Theorem AuthResult_invariant (env : Env) (op : AuthOp) (w : World) :
  ∃ r w', run_op env op w = (inr r, w')
    ∧ (AuthResult.success r = true →
         AuthResult.error r = None
         ∧ (is_Some (AuthResult.user r) ↔ returns_user op = true))
    ∧ (AuthResult.success r = false →
         is_Some (AuthResult.error r) ∧ AuthResult.user r = None).
Proof.
  destruct op; unfold_scripts; cbn;
    repeat (case_match; simplify_eq/=);
    eexists _, _; (split; [reflexivity |]); cbn;
    (split; [intros ?; try discriminate | intros ?; try discriminate]);
    try (split; [done | split; [done | by eauto]]);
    try (split; [by eauto | done]);
    try (split; [done | split; [intros [? ?]; done | done]]).
Qed.

(** C2 as stated fails: resetPassword reports success without a user. *)
Lemma resetPassword_success_without_user :
  ∃ r, (resetPassword env_happy "alice@example.com" (page idle idle)).1 = inr r
       ∧ AuthResult.success r = true
       ∧ AuthResult.user r = None.
Proof. eexists. repeat split; reflexivity. Qed.

(** ** Reasoning about scripts step by step *)

Section WP.
Context {A B : Type}.
Implicit Types (w : World) (Q : Exn + A → World → Prop).

Lemma wp_ret (a : A) w Q : Q (inr a) w → wp (mret a) w Q.
Proof. done. Qed.

Lemma wp_throw (e : Exn) w Q : Q (inl e) w → wp (throw e) w Q.
Proof. done. Qed.

Lemma wp_settle (r : Exn + A) w Q : Q r w → wp (settle r) w Q.
Proof. done. Qed.

Lemma wp_await (r : Exn + A) w Q : Q r w → wp (await r) w Q.
Proof. done. Qed.

Lemma wp_bind (m : M A) (k : A → M B) w (Q : Exn + B → World → Prop) :
  wp m w (λ r w', match r with
                  | inl e => Q (inl e) w'
                  | inr a => wp (k a) w' Q
                  end) →
  wp (m ≫= k) w Q.
Proof.
  unfold wp, mbind, M_bind. destruct (m w) as [[e | a] w']; done.
Qed.

Lemma wp_try_catch (m : M A) (h : Exn → M A) w Q :
  wp m w (λ r w', match r with
                  | inl e => wp (h e) w' Q
                  | inr a => Q (inr a) w'
                  end) →
  wp (try_catch m h) w Q.
Proof.
  unfold wp, try_catch. destruct (m w) as [[e | a] w']; done.
Qed.
End WP.

Lemma wp_await_void (r : option Exn) w (Q : Exn + () → World → Prop) :
  match r with Some e => Q (inl e) w | None => Q (inr ()) w end →
  wp (await_void r) w Q.
Proof. by destruct r. Qed.

Lemma wp_emit (ev : Event) w (Q : Exn + () → World → Prop) :
  Q (inr ()) {| submit_button := submit_button w; google_button := google_button w;
                events := events w ++ [ev] |} →
  wp (emit ev) w Q.
Proof. done. Qed.

Lemma wp_showLoading (id : ButtonId) w (Q : Exn + string → World → Prop) :
  Q (inr (innerHTML (button id w)))
    (set_button id {| disabled := true; innerHTML := spinner |} w) →
  wp (showLoading id) w Q.
Proof. done. Qed.

Lemma wp_hideLoading (id : ButtonId) (originalText : string) w
    (Q : Exn + () → World → Prop) :
  Q (inr ()) (set_button id {| disabled := false; innerHTML := originalText |} w) →
  wp (hideLoading id originalText) w Q.
Proof. done. Qed.

Arguments get : simpl never.
Arguments truthy : simpl never.
Arguments js_or : simpl never.
Arguments strict_eq : simpl never.
Arguments spinner : simpl never.
Arguments JSON_stringify : simpl never.

(** Reduce the page and the results the scripts have built so far. *)
Ltac wp_reduce :=
  cbv beta iota;
  cbn [AuthResult.success AuthResult.user AuthResult.error AuthResult.rawCode
       submit_button google_button events button set_button page
       User.uid User.email User.displayName User.photoURL User.emailVerified
       json code message fst snd app error_value failure default from_option id negb].

(** Settle the value the script branches on: by [tac] when it knows the
    value, by cases otherwise. *)
Ltac wp_case x tac :=
  first [ progress tac
        | match goal with H : x = _ |- _ => rewrite H end
        | destruct x eqn:? ].

Ltac head_of t :=
  lazymatch t with
  | ?f _ => head_of f
  | _ => t
  end.

Ltac wp_step tac :=
  lazymatch goal with
  | |- wp (mret _) _ _ => apply wp_ret
  | |- wp (mbind _ _) _ _ => apply wp_bind
  | |- wp (try_catch _ _) _ _ => apply wp_try_catch
  | |- wp (throw _) _ _ => apply wp_throw
  | |- wp (settle _) _ _ => apply wp_settle
  | |- wp (await _) _ _ => apply wp_await
  | |- wp (await_void _) _ _ => apply wp_await_void
  | |- wp (emit _) _ _ => apply wp_emit
  | |- wp (showLoading _) _ _ => apply wp_showLoading
  | |- wp (hideLoading _ _) _ _ => apply wp_hideLoading
  | |- wp (if ?c then _ else _) _ _ => wp_case c tac
  | |- wp (match ?x with _ => _ end) _ _ => wp_case x tac
  | |- match ?x with _ => _ end => wp_case x tac
  | |- wp ?m _ _ =>
      let h := head_of m in
      first [ unfold h | fail 1 "no rule for" m ]
  end; wp_reduce.

Ltac wp_run tac := repeat (wp_step tac).

(** ** The page scripts *)

Lemma strict_eq_true (c : option string) (s : string) :
  strict_eq c s = true ↔ c = Some s.
Proof.
  destruct c as [c |]; unfold strict_eq; [| done].
  rewrite String.eqb_eq. split; congruence.
Qed.

Ltac settled_now :=
  unfold settled; cbn;
  first [ left; split; reflexivity
        | right; left; split; [reflexivity | eexists; reflexivity]
        | right; right; eexists _, _; reflexivity ].

(** X16. The email/password registration never rejects, and never leaves the
    submit control disabled after a failure. *)
Lemma registerForm_submit_settles (env : Env)
    (name email password confirmPassword : string) (b g : Button) :
  wp (registerForm_submit env name email password confirmPassword) (page b g)
     (λ r w', r = inr () ∧ settled submitBtn b w').
Proof.
  wp_run idtac; (split; [reflexivity | settled_now]).
Qed.

(** X21. Neither does the password-reset flow: it never rejects, and never
    leaves the submit control disabled after a failure. *)
Lemma forgotPasswordForm_submit_settles (env : Env) (email : string) (b g : Button) :
  wp (forgotPasswordForm_submit env email) (page b g)
     (λ r w', r = inr () ∧ settled submitBtn b w').
Proof.
  wp_run idtac; (split; [reflexivity | settled_now]).
Qed.

(** X18. The Google sign-up does so as long as the token retrieval does not
    reject. *)
Lemma googleSignUpBtn_click_settles (env : Env) (tok : JValue) (b g : Button) :
  token_retrieved env tok →
  wp (googleSignUpBtn_click env) (page b g)
     (λ r w', r = inr () ∧ settled googleSignUpBtn g w').
Proof.
  unfold token_retrieved. intros Htok.
  destruct (auth_currentUser env) as [u |] eqn:Hu.
  - destruct Htok as (t & Ht & ->).
    wp_run idtac; (split; [reflexivity | settled_now]).
  - wp_run idtac; (split; [reflexivity | settled_now]).
Qed.

(** C3 (defect). In the Google sign-up the token is fetched outside the try
    block: when the pop-up succeeds and the token retrieval rejects, the
    handler rejects with that error, shows nothing, and leaves the control
    disabled with the spinner as its label. *)
Theorem googleSignUpBtn_click_token_rejection :
  wp (googleSignUpBtn_click env_google_token_fails) (page idle idle)
     (λ r w', r = inl network_failed
              ∧ google_button w' = {| disabled := true; innerHTML := spinner |}
              ∧ shown_errors w' = []
              ∧ events w' = [SignInPopup; GetIdToken]).
Proof. unfold wp. vm_compute. done. Qed.

(** *** The recovery branch *)

Lemma JSON_stringify_email (email : string) :
  JSON_stringify [("email", JStr email)] = [("email", JStr email)].
Proof. reflexivity. Qed.

Lemma getErrorMessage_already_in_use :
  getErrorMessage (property_key (Some already_in_use))
  = JStr "This email is already registered. Please sign in instead.".
Proof. by vm_compute. Qed.

(** C8. A registration whose account creation is rejected with
    auth/email-already-in-use, and for which the backend answers
    {deleted:false}, shows the translated provider message (not a generic
    fallback), makes no sign-in attempt, and re-enables the control. *)
Theorem registration_email_not_deleted (env : Env) (name email password : string)
    (b g : Button) :
  creation_fails_with env email password already_in_use →
  check_deleted_answers env email (JBool false) →
  wp (registerForm_submit env name email password password) (page b g)
     (λ r w', r = inr ()
              ∧ events w'
                = [ CreateUser email password;
                    Fetch "/api/check-deleted-email" [("email", JStr email)];
                    ShowError (JStr "This email is already registered. Please sign in instead.") ]
              ∧ filter (λ ev, is_sign_in ev = true) (events w') = []
              ∧ submit_button w' = restored b).
Proof.
  intros (e & Hc & Hcode) (resp & data & Hf & Hj & Hd).
  assert (Hpw : negb (password =? password) = false) by by rewrite String.eqb_refl.
  assert (Hs : strict_eq (code e) already_in_use = true) by by apply strict_eq_true.
  assert (Ht : truthy (JBool false) = false) by reflexivity.
  wp_run ltac:(rewrite JSON_stringify_email).
  rewrite Hcode, getErrorMessage_already_in_use. done.
Qed.

Lemma registration_email_not_deleted_witness :
  creation_fails_with (env_in_use false) "alice@example.com" "secret1" already_in_use
  ∧ check_deleted_answers (env_in_use false) "alice@example.com" (JBool false)
  ∧ wp (registerForm_submit (env_in_use false) "Alice" "alice@example.com" "secret1" "secret1")
       (page idle idle)
       (λ r w', r = inr ()
                ∧ events w'
                  = [ CreateUser "alice@example.com" "secret1";
                      Fetch "/api/check-deleted-email" [("email", JStr "alice@example.com")];
                      ShowError (JStr "This email is already registered. Please sign in instead.") ]
                ∧ filter (λ ev, is_sign_in ev = true) (events w') = []
                ∧ submit_button w' = restored idle).
Proof.
  assert (H1 : creation_fails_with (env_in_use false) "alice@example.com" "secret1"
                 already_in_use).
  { exists email_in_use. split; reflexivity. }
  assert (H2 : check_deleted_answers (env_in_use false) "alice@example.com" (JBool false)).
  { eexists _, _. repeat split; reflexivity. }
  split; [exact H1 |]. split; [exact H2 |].
  exact (registration_email_not_deleted (env_in_use false) "Alice" "alice@example.com"
           "secret1" idle idle H1 H2).
Defined.

(** Use [Hb : backend_call_fails env url] at the request to [url]. *)
Ltac fetch_fails env url Hb :=
  match goal with
  | |- context [window_fetch env url ?body] =>
      let r := fresh "response" in
      generalize (Hb body);
      destruct (window_fetch env url body) as [? | r];
      [ intros _
      | destruct (json r) eqn:?; [intros _ | intros []] ]
  end.

(** C4 (as the code has it). A failure of the backend call of the normal
    path (step 3) shows the generic network-error message; a failure of a
    backend call of the recovery branch (step 4), be it the deleted-email
    query or the re-registration request, shows the translated provider
    message for the email already in use. In both steps the submit control
    is re-enabled. *)
Theorem registration_network_failure (env : Env) (name email password : string)
    (b g : Button) :
  (∀ u, creation_succeeds env email password name u →
        backend_call_fails env "/firebase-register" →
        wp (registerForm_submit env name email password password) (page b g)
           (λ r w', r = inr ()
                    ∧ shown_errors w' = [JStr "Network error. Please try again."]
                    ∧ submit_button w' = restored b))
  ∧ (creation_fails_with env email password already_in_use →
     backend_call_fails env "/api/check-deleted-email" →
     wp (registerForm_submit env name email password password) (page b g)
        (λ r w', r = inr ()
                 ∧ shown_errors w'
                   = [JStr "This email is already registered. Please sign in instead."]
                 ∧ submit_button w' = restored b))
  ∧ (∀ v u, creation_fails_with env email password already_in_use →
        check_deleted_answers env email v → truthy v = true →
        auth_signInWithEmailAndPassword env email password = inr u →
        backend_call_fails env "/firebase-register" →
        wp (registerForm_submit env name email password password) (page b g)
           (λ r w', r = inr ()
                    ∧ shown_errors w'
                      = [JStr "This email is already registered. Please sign in instead."]
                    ∧ submit_button w' = restored b)).
Proof.
  assert (Hpw : negb (password =? password) = false) by by rewrite String.eqb_refl.
  split; [| split].
  - intros u (u0 & Hc & Hp & Hv & ->) Hb. unfold profile_update, named in *.
    destruct (truthy (JStr name)) eqn:Hn;
      wp_run ltac:(idtac; fetch_fails env "/firebase-register" Hb); done.
  - intros (e & Hc & Hcode) Hb.
    assert (Hs : strict_eq (code e) already_in_use = true) by by apply strict_eq_true.
    wp_run ltac:(idtac; fetch_fails env "/api/check-deleted-email" Hb);
      rewrite Hcode, getErrorMessage_already_in_use; done.
  - intros v u (e & Hc & Hcode) (resp & data & Hf & Hj & Hd) Hv Hin Hb.
    assert (Hs : strict_eq (code e) already_in_use = true) by by apply strict_eq_true.
    wp_run ltac:(idtac; first [ rewrite JSON_stringify_email
                              | fetch_fails env "/firebase-register" Hb ]);
      rewrite Hcode, getErrorMessage_already_in_use; done.
Qed.

Lemma creation_fails_in_use (sign_in popup : Exn + User.t) (token : Exn + string)
    (backend : string → Exn + Response) (email password : string) :
  creation_fails_with
    (example_env (inl email_in_use) None sign_in popup token backend)
    email password already_in_use.
Proof. exists email_in_use. split; reflexivity. Qed.

Lemma creation_succeeds_alice (sign_in popup : Exn + User.t) (token : Exn + string)
    (backend : string → Exn + Response) (email password : string) :
  creation_succeeds
    (example_env (inr alice) None sign_in popup token backend)
    email password "Alice" (named alice "Alice").
Proof. exists alice. repeat split; reflexivity. Qed.

Lemma check_deleted_answers_ok (create sign_in popup : Exn + User.t)
    (verification : option Exn) (token : Exn + string) (deleted : bool) (email : string) :
  check_deleted_answers
    (example_env create verification sign_in popup token (backend_ok deleted))
    email (JBool deleted).
Proof. eexists _, _. repeat split; reflexivity. Qed.

Lemma registration_network_failure_witness :
  (creation_succeeds env_created_offline "alice@example.com" "secret1" "Alice"
     (named alice "Alice")
   ∧ backend_call_fails env_created_offline "/firebase-register"
   ∧ wp (registerForm_submit env_created_offline "Alice" "alice@example.com"
           "secret1" "secret1") (page idle idle)
        (λ r w', r = inr ()
                 ∧ shown_errors w' = [JStr "Network error. Please try again."]
                 ∧ submit_button w' = restored idle))
  ∧ (creation_fails_with env_in_use_offline "alice@example.com" "secret1" already_in_use
     ∧ backend_call_fails env_in_use_offline "/api/check-deleted-email"
     ∧ wp (registerForm_submit env_in_use_offline "Alice" "alice@example.com"
             "secret1" "secret1") (page idle idle)
          (λ r w', r = inr ()
                   ∧ shown_errors w'
                     = [JStr "This email is already registered. Please sign in instead."]
                   ∧ submit_button w' = restored idle))
  ∧ (creation_fails_with env_recovery_register_offline "alice@example.com" "secret1"
       already_in_use
     ∧ backend_call_fails env_recovery_register_offline "/firebase-register"
     ∧ wp (registerForm_submit env_recovery_register_offline "Alice" "alice@example.com"
             "secret1" "secret1") (page idle idle)
          (λ r w', r = inr ()
                   ∧ shown_errors w'
                     = [JStr "This email is already registered. Please sign in instead."]
                   ∧ submit_button w' = restored idle)).
Proof.
  assert (Hdown : ∀ url, backend_call_fails env_created_offline url) by (intros url body; exact I).
  assert (Hdown' : ∀ url, backend_call_fails env_in_use_offline url) by (intros url body; exact I).
  assert (Hreg : backend_call_fails env_recovery_register_offline "/firebase-register")
    by (intros body; exact I).
  assert (Hc := creation_succeeds_alice (inr alice) (inr alice) (inr "token-1") backend_down
                  "alice@example.com" "secret1").
  assert (Hf := creation_fails_in_use (inr alice) (inr alice) (inr "token-1") backend_down
                  "alice@example.com" "secret1").
  assert (Hf' := creation_fails_in_use (inr alice) (inr alice) (inr "token-1")
                   backend_register_down "alice@example.com" "secret1").
  split; [| split].
  - split; [exact Hc |]. split; [apply Hdown |].
    exact (proj1 (registration_network_failure env_created_offline "Alice"
                    "alice@example.com" "secret1" idle idle) _ Hc (Hdown _)).
  - split; [exact Hf |]. split; [apply Hdown' |].
    exact (proj1 (proj2 (registration_network_failure env_in_use_offline "Alice"
                    "alice@example.com" "secret1" idle idle)) Hf (Hdown' _)).
  - split; [exact Hf' |]. split; [exact Hreg |].
    refine (proj2 (proj2 (registration_network_failure env_recovery_register_offline
                    "Alice" "alice@example.com" "secret1" idle idle))
              (JBool true) alice Hf' _ eq_refl eq_refl Hreg).
    eexists _, _. repeat split; reflexivity.
Defined.

(** C4 as stated fails: in the recovery branch a backend that cannot be
    reached yields the provider's message, not the network-error message. *)
Lemma recovery_offline_shows_provider_message :
  creation_fails_with env_in_use_offline "alice@example.com" "secret1" already_in_use
  ∧ backend_call_fails env_in_use_offline "/api/check-deleted-email"
  ∧ wp (registerForm_submit env_in_use_offline "Alice" "alice@example.com"
          "secret1" "secret1") (page idle idle)
       (λ r w', shown_errors w'
                = [JStr "This email is already registered. Please sign in instead."]
                ∧ shown_errors w' ≠ [JStr "Network error. Please try again."]).
Proof.
  split; [apply creation_fails_in_use |]. split; [intros body; exact I |].
  unfold wp. vm_compute. split; [reflexivity | discriminate].
Qed.

(** C5 (as the code has it). In the recovery branch, when the backend
    reports the email as not soft-deleted the flow shows the translated
    provider message for the email already in use; when the recovery sign-in
    fails it shows the fixed text "An account with this email exists. Please
    sign in or use a different email.". In both cases the submit control is
    re-enabled. *)
Theorem recovery_failure_messages (env : Env) (name email password : string)
    (b g : Button) :
  (∀ v, creation_fails_with env email password already_in_use →
        check_deleted_answers env email v → truthy v = false →
        wp (registerForm_submit env name email password password) (page b g)
           (λ r w', r = inr ()
                    ∧ shown_errors w'
                      = [getErrorMessage already_in_use]
                    ∧ submit_button w' = restored b))
  ∧ (∀ v e, creation_fails_with env email password already_in_use →
        check_deleted_answers env email v → truthy v = true →
        auth_signInWithEmailAndPassword env email password = inl e →
        wp (registerForm_submit env name email password password) (page b g)
           (λ r w', r = inr ()
                    ∧ shown_errors w'
                      = [JStr "An account with this email exists. Please sign in or use a different email."]
                    ∧ submit_button w' = restored b)).
Proof.
  assert (Hpw : negb (password =? password) = false) by by rewrite String.eqb_refl.
  split.
  - intros v (e & Hc & Hcode) (resp & data & Hf & Hj & Hd) Hv.
    assert (Hs : strict_eq (code e) already_in_use = true) by by apply strict_eq_true.
    wp_run ltac:(idtac; rewrite JSON_stringify_email).
    rewrite Hcode. done.
  - intros v e' (e & Hc & Hcode) (resp & data & Hf & Hj & Hd) Hv Hin.
    assert (Hs : strict_eq (code e) already_in_use = true) by by apply strict_eq_true.
    wp_run ltac:(idtac; rewrite JSON_stringify_email).
    done.
Qed.

Lemma recovery_failure_messages_witness :
  (creation_fails_with (env_in_use false) "alice@example.com" "secret1" already_in_use
   ∧ check_deleted_answers (env_in_use false) "alice@example.com" (JBool false)
   ∧ wp (registerForm_submit (env_in_use false) "Alice" "alice@example.com"
           "secret1" "secret1") (page idle idle)
        (λ r w', r = inr ()
                 ∧ shown_errors w' = [getErrorMessage already_in_use]
                 ∧ submit_button w' = restored idle))
  ∧ (creation_fails_with env_recovery_wrong_password "alice@example.com" "secret1"
       already_in_use
     ∧ check_deleted_answers env_recovery_wrong_password "alice@example.com" (JBool true)
     ∧ auth_signInWithEmailAndPassword env_recovery_wrong_password "alice@example.com"
         "secret1" = inl wrong_password
     ∧ wp (registerForm_submit env_recovery_wrong_password "Alice" "alice@example.com"
             "secret1" "secret1") (page idle idle)
          (λ r w', r = inr ()
                   ∧ shown_errors w'
                     = [JStr "An account with this email exists. Please sign in or use a different email."]
                   ∧ submit_button w' = restored idle)).
Proof.
  assert (H1 := creation_fails_in_use (inr alice) (inr alice) (inr "token-1")
                  (backend_ok false) "alice@example.com" "secret1").
  assert (H2 := check_deleted_answers_ok (inl email_in_use) (inr alice) (inr alice) None
                  (inr "token-1") false "alice@example.com").
  assert (H3 := creation_fails_in_use (inl wrong_password) (inr alice) (inr "token-1")
                  (backend_ok true) "alice@example.com" "secret1").
  assert (H4 := check_deleted_answers_ok (inl email_in_use) (inl wrong_password) (inr alice)
                  None (inr "token-1") true "alice@example.com").
  split.
  - split; [exact H1 |]. split; [exact H2 |].
    exact (proj1 (recovery_failure_messages (env_in_use false) "Alice" "alice@example.com"
                    "secret1" idle idle) (JBool false) H1 H2 eq_refl).
  - split; [exact H3 |]. split; [exact H4 |]. split; [reflexivity |].
    exact (proj2 (recovery_failure_messages env_recovery_wrong_password "Alice"
                    "alice@example.com" "secret1" idle idle)
             (JBool true) wrong_password H3 H4 eq_refl eq_refl).
Defined.

(** C5 as stated fails: after a failed recovery sign-in the message shown is
    not the provider's message for the email already in use. *)
Lemma recovery_sign_in_failure_message :
  creation_fails_with env_recovery_wrong_password "alice@example.com" "secret1" already_in_use
  ∧ check_deleted_answers env_recovery_wrong_password "alice@example.com" (JBool true)
  ∧ auth_signInWithEmailAndPassword env_recovery_wrong_password "alice@example.com" "secret1"
    = inl wrong_password
  ∧ wp (registerForm_submit env_recovery_wrong_password "Alice" "alice@example.com"
          "secret1" "secret1") (page idle idle)
       (λ r w', shown_errors w'
                = [JStr "An account with this email exists. Please sign in or use a different email."]
                ∧ shown_errors w' ≠ [getErrorMessage already_in_use]).
Proof.
  split; [apply creation_fails_in_use |].
  split; [apply check_deleted_answers_ok |].
  split; [reflexivity |].
  unfold wp. vm_compute. split; [reflexivity | discriminate].
Qed.

(** *** Requests to /firebase-register *)

Ltac requests_now :=
  repeat match goal with
         | |- context [nullable_string ?x] =>
             lazymatch x with
             | Some _ => fail
             | None => fail
             | _ => destruct x
             end
         end;
  repeat match goal with
         | |- context [getErrorMessage ?c] => generalize (getErrorMessage c); intro
         end;
  vm_compute; repeat constructor.

(** C6 (as the code has it). Every request that the email registration sends
    to POST /firebase-register, on the normal path and on the
    re-registration path, has a body with the seven members token, email,
    uid, displayName, photoURL, provider and is_reregistration; the request
    of the Google sign-up has the six members token, email, uid,
    displayName, photoURL and provider, and no is_reregistration. *)
Theorem firebase_register_request_fields (env : Env)
    (name email password confirmPassword : string) (b g : Button) :
  wp (registerForm_submit env name email password confirmPassword) (page b g)
     (λ _ w', Forall (λ body, keys body = registration_fields)
                (requests_to "/firebase-register" w'))
  ∧ wp (googleSignUpBtn_click env) (page b g)
       (λ _ w', Forall (λ body, keys body
                                = ["token"; "email"; "uid"; "displayName"; "photoURL"; "provider"])
                  (requests_to "/firebase-register" w')).
Proof.
  split; wp_run idtac; requests_now.
Qed.

(** C6 as stated fails: the request of the Google sign-up carries no
    is_reregistration member. *)
Lemma google_request_without_is_reregistration :
  wp (googleSignUpBtn_click env_happy) (page idle idle)
     (λ _ w', requests_to "/firebase-register" w' = [google_request_alice])
  ∧ member google_request_alice "is_reregistration" = None.
Proof. unfold wp. by vm_compute. Qed.

(** C7 (as the code has it). For a registration whose account creation is
    rejected with auth/email-already-in-use, where the backend answers
    {deleted:true}, the sign-in with the submitted email and password
    succeeds and the bearer token is retrieved, the flow makes exactly one
    call to /firebase-register, and that call carries
    is_reregistration:true. *)
Theorem reregistration_single_request (env : Env) (name email password : string)
    (b g : Button) (u : User.t) (tok : JValue) :
  creation_fails_with env email password already_in_use →
  check_deleted_answers env email (JBool true) →
  auth_signInWithEmailAndPassword env email password = inr u →
  token_retrieved env tok →
  wp (registerForm_submit env name email password password) (page b g)
     (λ r w', r = inr ()
              ∧ requests_to "/firebase-register" w' = [reregistration_request tok u name]
              ∧ member (reregistration_request tok u name) "is_reregistration"
                = Some (JBool true)).
Proof.
  intros (e & Hc & Hcode) (resp & data & Hf & Hj & Hd) Hin Htok.
  assert (Hpw : negb (password =? password) = false) by by rewrite String.eqb_refl.
  assert (Hs : strict_eq (code e) already_in_use = true) by by apply strict_eq_true.
  assert (Ht : truthy (JBool true) = true) by reflexivity.
  unfold token_retrieved in Htok.
  destruct (auth_currentUser env) as [cu |] eqn:Hcu; [destruct Htok as (t & Hget & ->) | subst tok];
    wp_run ltac:(idtac; rewrite JSON_stringify_email);
    (split; [reflexivity |]); unfold reregistration_request;
    destruct (User.email u); split; reflexivity.
Qed.

Lemma reregistration_single_request_witness :
  creation_fails_with (env_in_use true) "alice@example.com" "secret1" already_in_use
  ∧ check_deleted_answers (env_in_use true) "alice@example.com" (JBool true)
  ∧ auth_signInWithEmailAndPassword (env_in_use true) "alice@example.com" "secret1" = inr alice
  ∧ token_retrieved (env_in_use true) (JStr "token-1")
  ∧ wp (registerForm_submit (env_in_use true) "Alice" "alice@example.com" "secret1" "secret1")
       (page idle idle)
       (λ r w', r = inr ()
                ∧ requests_to "/firebase-register" w'
                  = [reregistration_request (JStr "token-1") alice "Alice"]
                ∧ member (reregistration_request (JStr "token-1") alice "Alice")
                    "is_reregistration" = Some (JBool true)).
Proof.
  assert (H1 := creation_fails_in_use (inr alice) (inr alice) (inr "token-1")
                  (backend_ok true) "alice@example.com" "secret1").
  assert (H2 := check_deleted_answers_ok (inl email_in_use) (inr alice) (inr alice) None
                  (inr "token-1") true "alice@example.com").
  assert (H4 : token_retrieved (env_in_use true) (JStr "token-1")).
  { exists "token-1". split; reflexivity. }
  split; [exact H1 |]. split; [exact H2 |]. split; [reflexivity |]. split; [exact H4 |].
  exact (reregistration_single_request (env_in_use true) "Alice" "alice@example.com"
           "secret1" idle idle alice (JStr "token-1") H1 H2 eq_refl H4).
Defined.

(** C7 as stated fails: when the token retrieval rejects after the recovery
    sign-in, no request is sent to /firebase-register. *)
Lemma reregistration_without_request :
  creation_fails_with env_recovery_token_fails "alice@example.com" "secret1" already_in_use
  ∧ check_deleted_answers env_recovery_token_fails "alice@example.com" (JBool true)
  ∧ auth_signInWithEmailAndPassword env_recovery_token_fails "alice@example.com" "secret1"
    = inr alice
  ∧ wp (registerForm_submit env_recovery_token_fails "Alice" "alice@example.com"
          "secret1" "secret1") (page idle idle)
       (λ r w', requests_to "/firebase-register" w' = []
                ∧ events w'
                  = [ CreateUser "alice@example.com" "secret1";
                      Fetch "/api/check-deleted-email" [("email", JStr "alice@example.com")];
                      SignIn "alice@example.com" "secret1";
                      GetIdToken;
                      ShowError (JStr "This email is already registered. Please sign in instead.") ]).
Proof.
  split; [apply creation_fails_in_use |].
  split; [apply check_deleted_answers_ok |].
  split; [reflexivity |].
  unfold wp. by vm_compute.
Qed.

(** *** The password-reset flow *)

(** C10. The password-reset flow rejects every email that does not have the
    shape local@domain.tld with a message and without any network call, and
    for every email of that shape it calls the resetPassword operation,
    which asks the provider to send the reset mail. *)
Theorem forgotPassword_validation (env : Env) (email : string) (b g : Button) :
  (¬ local_at_domain_tld email →
   wp (forgotPasswordForm_submit env email) (page b g)
      (λ r w', r = inr ()
               ∧ events w' = [ShowError (JStr "Please enter a valid email address.")]
               ∧ filter (λ ev, is_network_call ev = true) (events w') = []
               ∧ submit_button w' = b))
  ∧ (local_at_domain_tld email →
     wp (forgotPasswordForm_submit env email) (page b g)
        (λ r w', r = inr ()
                 ∧ ∃ rest, events w'
                           = SendPasswordResetEmail email (window_location_origin env +:+ "/login")
                             :: rest)).
Proof.
  split.
  - intros Hshape. apply emailRegex_rejects in Hshape.
    assert (Ht : negb (RegExp_test emailRegex email) = true) by by rewrite Hshape.
    wp_run idtac. done.
  - intros Hshape. apply emailRegex_shape in Hshape.
    assert (Ht : negb (RegExp_test emailRegex email) = false) by by rewrite Hshape.
    wp_run idtac; (split; [reflexivity | eexists; reflexivity]).
Qed.

Lemma forgotPassword_validation_witness :
  (¬ local_at_domain_tld "not-an-email"
   ∧ wp (forgotPasswordForm_submit env_happy "not-an-email") (page idle idle)
        (λ r w', r = inr ()
                 ∧ events w' = [ShowError (JStr "Please enter a valid email address.")]
                 ∧ filter (λ ev, is_network_call ev = true) (events w') = []
                 ∧ submit_button w' = idle))
  ∧ (local_at_domain_tld "user@example.com"
     ∧ wp (forgotPasswordForm_submit env_happy "user@example.com") (page idle idle)
          (λ r w', r = inr ()
                   ∧ ∃ rest, events w'
                             = SendPasswordResetEmail "user@example.com"
                                 (window_location_origin env_happy +:+ "/login")
                               :: rest)).
Proof.
  assert (H1 : ¬ local_at_domain_tld "not-an-email").
  { apply emailRegex_rejects. reflexivity. }
  assert (H2 : local_at_domain_tld "user@example.com").
  { apply emailRegex_shape. reflexivity. }
  split.
  - split; [exact H1 |].
    exact (proj1 (forgotPassword_validation env_happy "not-an-email" idle idle) H1).
  - split; [exact H2 |].
    exact (proj2 (forgotPassword_validation env_happy "user@example.com" idle idle) H2).
Defined.

(** * Further properties *)

(** ** The error translator, on the whole of its domain *)

(** X1. Every code listed in the translation table is translated to exactly
    the text listed with it. *)
Theorem getErrorMessage_entry (errorCode text : string) :
  (errorCode, text) ∈ errorMessages_entries →
  getErrorMessage errorCode = JStr text.
Proof.
  unfold errorMessages_entries. rewrite !elem_of_cons, elem_of_nil.
  intros H. repeat (destruct H as [[= -> ->] | H]; [by vm_compute |]). destruct H.
Qed.

Lemma getErrorMessage_entry_witness :
  ("auth/weak-password", "Password should be at least 6 characters long.")
    ∈ errorMessages_entries
  ∧ getErrorMessage "auth/weak-password"
    = JStr "Password should be at least 6 characters long.".
Proof.
  assert (H : ("auth/weak-password", "Password should be at least 6 characters long.")
                ∈ errorMessages_entries).
  { unfold errorMessages_entries. do 3 apply list_elem_of_further. apply list_elem_of_here. }
  split; [exact H | exact (getErrorMessage_entry _ _ H)].
Defined.

(** X2. A string that is neither a code of the table nor the name of a
    member of Object.prototype is translated to the fallback text. *)
Theorem getErrorMessage_fallback (errorCode : string) :
  errorCode ∉ (errorMessages_entries.*1) →
  errorCode ∉ Object_prototype →
  getErrorMessage errorCode = JStr "An error occurred. Please try again.".
Proof.
  intros Hout Hproto. apply getErrorMessage_unknown; [| done].
  by apply not_elem_of_list_to_map_1.
Qed.

Lemma getErrorMessage_fallback_witness :
  ("auth/internal-error" ∉ (errorMessages_entries.*1))
  ∧ ("auth/internal-error" ∉ Object_prototype)
  ∧ getErrorMessage "auth/internal-error" = JStr "An error occurred. Please try again.".
Proof.
  assert (H1 : "auth/internal-error" ∉ (errorMessages_entries.*1)).
  { apply (bool_decide_unpack _). vm_compute. exact I. }
  assert (H2 : "auth/internal-error" ∉ Object_prototype).
  { apply (bool_decide_unpack _). vm_compute. exact I. }
  split; [exact H1 |]. split; [exact H2 |].
  exact (getErrorMessage_fallback "auth/internal-error" H1 H2).
Defined.

Lemma getErrorMessage_truthy (errorCode : string) :
  truthy (getErrorMessage errorCode) = true.
Proof.
  unfold getErrorMessage, js_or.
  destruct (truthy (property _ _)) eqn:E; [exact E | reflexivity].
Qed.

(** X3. Whatever string it is given, the translator returns something to
    show: a non-empty text, or, for the name of a member of
    Object.prototype, that member; never [undefined], [null] or the empty
    string. *)
Theorem getErrorMessage_never_empty (errorCode : string) :
  truthy (getErrorMessage errorCode) = true
  ∧ ((∃ text, getErrorMessage errorCode = JStr text ∧ text ≠ EmptyString)
     ∨ (errorCode ∈ Object_prototype ∧ getErrorMessage errorCode = JInherited errorCode)).
Proof.
  split; [apply getErrorMessage_truthy |].
  destruct (errorMessages !! errorCode) as [text |] eqn:Hin.
  - left. exists text. split; [by apply getErrorMessage_table |].
    apply elem_of_list_to_map_2 in Hin.
    pose proof errorMessages_entries_truthy as Hall.
    rewrite Forall_forall in Hall. specialize (Hall _ Hin). cbn [snd] in Hall.
    intros ->. discriminate.
  - destruct (decide (errorCode ∈ Object_prototype)) as [Hp | Hp].
    + right. split; [done | by apply getErrorMessage_inherited].
    + left. exists fallback_message. split; [by apply getErrorMessage_unknown | done].
Qed.

(** ** The email pattern, seen from its user *)

Lemma plain_units_no_at (l : list N) :
  Forall (λ u, is_whitespace u = false ∧ u ≠ 64%N) l →
  filter (λ u, u = 64%N) l = [] ∧ Forall (λ u, is_whitespace u = false) l.
Proof.
  induction 1 as [| u l [Hw Hu] _ [IH1 IH2]]; [done |].
  split; [| by constructor].
  rewrite filter_cons_False by done. exact IH1.
Qed.

(** X4. An email the password-reset page accepts holds exactly one at sign
    and no white space, and is at least five characters long. *)
Theorem emailRegex_accepted (email : string) :
  RegExp_test emailRegex email = true →
  length (filter (λ u, u = 64%N) (code_units email)) = 1
  ∧ Forall (λ u, is_whitespace u = false) (code_units email)
  ∧ (5 ≤ length (code_units email))%nat.
Proof.
  unfold RegExp_test. rewrite matches_Matches, Matches_emailRegex.
  intros (l & d & t & [Hl Hfl] & [Hd Hfd] & [Ht Hft] & ->).
  apply plain_units_no_at in Hfl as [Hl1 Hl2].
  apply plain_units_no_at in Hfd as [Hd1 Hd2].
  apply plain_units_no_at in Hft as [Ht1 Ht2].
  split; [| split].
  - rewrite filter_app, filter_cons_True by done.
    rewrite filter_app, filter_cons_False by done.
    rewrite Hl1, Hd1, Ht1. reflexivity.
  - apply Forall_app. split; [done |]. constructor; [reflexivity |].
    apply Forall_app. split; [done |]. constructor; [reflexivity | done].
  - rewrite length_app. cbn [length]. rewrite length_app. cbn [length].
    destruct l; [done |]. destruct d; [done |]. destruct t; [done |].
    cbn [length]. lia.
Qed.

Lemma emailRegex_accepted_witness :
  RegExp_test emailRegex "user@example.com" = true
  ∧ length (filter (λ u, u = 64%N) (code_units "user@example.com")) = 1
  ∧ Forall (λ u, is_whitespace u = false) (code_units "user@example.com")
  ∧ (5 ≤ length (code_units "user@example.com"))%nat.
Proof.
  split; [reflexivity |]. exact (emailRegex_accepted "user@example.com" eq_refl).
Defined.

(** ** The loading state of a control *)

(** X5. Showing the loading state and hiding it again with the text that
    showLoading returned gives the control its label back and enables it;
    in between the control is disabled and shows the spinner. The other
    control and the trace are left alone. *)
Theorem showLoading_hideLoading (id : ButtonId) (w : World) :
  wp (showLoading id) w
     (λ r w1, r = inr (innerHTML (button id w))
              ∧ button id w1 = {| disabled := true; innerHTML := spinner |}
              ∧ wp (hideLoading id (innerHTML (button id w))) w1
                   (λ r' w2, r' = inr ()
                             ∧ button id w2 = restored (button id w)
                             ∧ events w2 = events w
                             ∧ ∀ other, other ≠ id → button other w2 = button other w)).
Proof.
  destruct id; unfold wp; cbn; repeat split; intros []; done.
Qed.

(** X6. Showing the loading state twice takes the spinner for the label:
    hiding it with the text of the second call enables the control but
    leaves the spinner as its label. *)
Theorem showLoading_twice (id : ButtonId) (w : World) :
  wp (showLoading id ≫= λ _, showLoading id ≫= λ originalText, hideLoading id originalText) w
     (λ r w', r = inr ()
              ∧ button id w' = {| disabled := false; innerHTML := spinner |}).
Proof.
  destruct id; unfold wp; cbn; done.
Qed.

(** ** The Auth Client Wrapper, call by call *)

(** X7. signUpWithEmail calls the provider in a fixed order and stops at the
    first rejection: its calls are an initial part of (create, update the
    profile when the display name is not empty, send the verification
    mail), and the verification mail is requested exactly when the account
    creation and the profile update have succeeded. *)
Theorem signUpWithEmail_calls (env : Env) (email password displayName : string)
    (b g : Button) :
  wp (signUpWithEmail env email password displayName) (page b g)
     (λ r w', events w' `prefix_of` signUp_calls email password displayName
              ∧ (events w' = signUp_calls email password displayName
                 ↔ ∃ u0, auth_createUserWithEmailAndPassword env email password = inr u0
                         ∧ profile_update env u0 displayName = None)).
Proof.
  unfold signUp_calls, profile_update.
  destruct (truthy (JStr displayName)) eqn:Hn;
    wp_run idtac; cbn;
    (split; [by eexists |]);
    (split; [intros ?; try discriminate; by eauto |]);
    intros (u0 & Hc & Hp); simplify_eq; done.
Qed.

(** X8. A failure reported by signInWithEmail, signUpWithEmail,
    signInWithGoogle or resetPassword always carries a message to show
    (never [undefined], never the empty string); a failure of signOut
    carries the raw message of the error. *)
Theorem failure_message (env : Env) (op : AuthOp) (w : World) :
  wp (run_op env op) w
     (λ r w', ∀ a, r = inr a → AuthResult.success a = false →
              ∃ v, AuthResult.error a = Some v
                   ∧ (op ≠ OpSignOut → truthy v = true)
                   ∧ (op = OpSignOut → ∃ e, auth_signOut env = Some e ∧ v = JStr (message e))).
Proof.
  destruct op; wp_run idtac; intros a [= <-] Hs; try discriminate;
    eexists; (split; [reflexivity |]);
    (split; [intros Hne; first [by destruct Hne | apply getErrorMessage_truthy]
            | intros ?; try discriminate; by eauto]).
Qed.


(** X10. The wrapper's operations only talk to the provider: they leave both
    controls as they are, show nothing, schedule no redirect and send
    nothing to the backend. *)
Theorem wrapper_only_calls_provider (env : Env) (op : AuthOp) (b g : Button) :
  wp (run_op env op) (page b g)
     (λ r w', submit_button w' = b ∧ google_button w' = g
              ∧ Forall (λ ev, is_provider_call ev = true) (events w')).
Proof.
  destruct op; wp_run idtac; (split; [done |]); (split; [done |]);
    repeat constructor.
Qed.

(** ** The registration form, path by path *)

Lemma strict_eq_false (c : option string) (s : string) :
  strict_eq c s = false ↔ c ≠ Some s.
Proof.
  rewrite <- strict_eq_true. by destruct (strict_eq c s).
Qed.

(** Use [Hr : backend_replies env url data] at the request to [url]. *)
Ltac fetch_replies env url Hr :=
  match goal with
  | |- context [window_fetch env url ?body] =>
      let r := fresh "response" in
      let Hf := fresh "Hfetch" in
      let Hj := fresh "Hjson" in
      destruct (Hr body) as (r & Hf & Hj); rewrite Hf
  end.

(** X11. A submission whose password and confirmation differ is answered
    with "Passwords do not match!" and nothing else: no call leaves the
    page and both controls stay as they are. *)
Theorem registerForm_password_mismatch (env : Env)
    (name email password confirmPassword : string) (b g : Button) :
  password ≠ confirmPassword →
  wp (registerForm_submit env name email password confirmPassword) (page b g)
     (λ r w', r = inr ()
              ∧ events w' = [ShowError (JStr "Passwords do not match!")]
              ∧ submit_button w' = b ∧ google_button w' = g).
Proof.
  intros Hne.
  assert (Hpw : negb (password =? confirmPassword) = true).
  { apply negb_true_iff, String.eqb_neq. exact Hne. }
  wp_run idtac. done.
Qed.

Lemma registerForm_password_mismatch_witness :
  "secret1" ≠ "secret2"
  ∧ wp (registerForm_submit env_happy "Alice" "alice@example.com" "secret1" "secret2")
       (page idle idle)
       (λ r w', r = inr ()
                ∧ events w' = [ShowError (JStr "Passwords do not match!")]
                ∧ submit_button w' = idle ∧ google_button w' = idle).
Proof.
  assert (H : "secret1" ≠ "secret2") by discriminate.
  split; [exact H |].
  exact (registerForm_password_mismatch env_happy "Alice" "alice@example.com"
           "secret1" "secret2" idle idle H).
Defined.

(** X12. When the account is created, the token is retrieved and the backend
    answers with a truthy success, the flow sends one registration request
    with provider email and is_reregistration false, shows no error, and
    ends by scheduling its only redirect, to the login page after 2000 ms;
    the submit control stays disabled. *)
Theorem registration_success (env : Env) (name email password : string)
    (b g : Button) (u : User.t) (tok data v : JValue) :
  creation_succeeds env email password name u →
  token_retrieved env tok →
  backend_replies env "/firebase-register" data →
  get data "success" = inr v → truthy v = true →
  wp (registerForm_submit env name email password password) (page b g)
     (λ r w', r = inr ()
              ∧ requests_to "/firebase-register" w' = [registration_request tok u name]
              ∧ shown_errors w' = []
              ∧ scheduled_redirects w'
                = [("/login?success=Account created! Please check your email to verify your account.",
                    2000%Z)]
              ∧ last (events w')
                = Some (Redirect
                          "/login?success=Account created! Please check your email to verify your account."
                          2000)
              ∧ submit_button w' = {| disabled := true; innerHTML := spinner |}).
Proof.
  intros (u0 & Hc & Hp & Hv & ->) Htok Hr Hd Ht.
  assert (Hpw : negb (password =? password) = false) by by rewrite String.eqb_refl.
  unfold profile_update, named, token_retrieved in *.
  destruct (truthy (JStr name)) eqn:Hn;
    (destruct (auth_currentUser env) as [cu |] eqn:Hcu;
     [destruct Htok as (t & Hget & ->) | subst tok]);
    wp_run ltac:(idtac; fetch_replies env "/firebase-register" Hr);
    unfold registration_request; cbn [User.email User.uid];
    destruct (User.email u0); repeat split; reflexivity.
Qed.

Lemma backend_says_replies (create sign_in popup : Exn + User.t) (verification : option Exn)
    (token : Exn + string) (data : JValue) (url : string) :
  backend_replies
    (example_env create verification sign_in popup token (backend_says data)) url data.
Proof. intros body. by eexists. Qed.

Lemma backend_ok_registers (create sign_in popup : Exn + User.t) (verification : option Exn)
    (token : Exn + string) (deleted : bool) :
  backend_replies
    (example_env create verification sign_in popup token (backend_ok deleted))
    "/firebase-register" (JObj [("success", JBool true)]).
Proof. intros body. by eexists. Qed.

Lemma token_retrieved_example (create sign_in popup : Exn + User.t)
    (verification : option Exn) (token : string) (backend : string → Exn + Response) :
  token_retrieved (example_env create verification sign_in popup (inr token) backend)
    (JStr token).
Proof. exists token. split; reflexivity. Qed.

Lemma registration_success_witness :
  creation_succeeds env_happy "alice@example.com" "secret1" "Alice" (named alice "Alice")
  ∧ token_retrieved env_happy (JStr "token-1")
  ∧ backend_replies env_happy "/firebase-register" (JObj [("success", JBool true)])
  ∧ wp (registerForm_submit env_happy "Alice" "alice@example.com" "secret1" "secret1")
       (page idle idle)
       (λ r w', r = inr ()
                ∧ requests_to "/firebase-register" w'
                  = [registration_request (JStr "token-1") (named alice "Alice") "Alice"]
                ∧ shown_errors w' = []
                ∧ scheduled_redirects w'
                  = [("/login?success=Account created! Please check your email to verify your account.",
                      2000%Z)]
                ∧ last (events w')
                  = Some (Redirect
                            "/login?success=Account created! Please check your email to verify your account."
                            2000)
                ∧ submit_button w' = {| disabled := true; innerHTML := spinner |}).
Proof.
  assert (H1 := creation_succeeds_alice (inr alice) (inr alice) (inr "token-1")
                  (backend_ok false) "alice@example.com" "secret1").
  assert (H2 := token_retrieved_example (inr alice) (inr alice) (inr alice) None "token-1"
                  (backend_ok false)).
  assert (H3 := backend_ok_registers (inr alice) (inr alice) (inr alice) None
                  (inr "token-1") false).
  split; [exact H1 |]. split; [exact H2 |]. split; [exact H3 |].
  exact (registration_success env_happy "Alice" "alice@example.com" "secret1" idle idle
           (named alice "Alice") (JStr "token-1") (JObj [("success", JBool true)])
           (JBool true) H1 H2 H3 eq_refl eq_refl).
Defined.

(** X13. When the account is created but the backend refuses the
    registration (a falsy success), the flow shows the backend's error text
    if it is truthy and "Registration failed. Please try again." otherwise,
    schedules no redirect and re-enables the control. When the backend
    answers with the JSON value null, reading its success member throws,
    and the flow shows the network-error message instead. *)
Theorem registration_refused (env : Env) (name email password : string)
    (b g : Button) (u : User.t) :
  creation_succeeds env email password name u →
  (∀ tok data v err,
     token_retrieved env tok →
     backend_replies env "/firebase-register" data →
     get data "success" = inr v → truthy v = false →
     get data "error" = inr err →
     wp (registerForm_submit env name email password password) (page b g)
        (λ r w', r = inr ()
                 ∧ shown_errors w'
                   = [js_or err (JStr "Registration failed. Please try again.")]
                 ∧ scheduled_redirects w' = []
                 ∧ submit_button w' = restored b))
  ∧ (backend_replies env "/firebase-register" JNull →
     wp (registerForm_submit env name email password password) (page b g)
        (λ r w', r = inr ()
                 ∧ shown_errors w' = [JStr "Network error. Please try again."]
                 ∧ scheduled_redirects w' = []
                 ∧ submit_button w' = restored b)).
Proof.
  intros (u0 & Hc & Hp & Hv & ->).
  assert (Hpw : negb (password =? password) = false) by by rewrite String.eqb_refl.
  unfold profile_update, named, token_retrieved in *.
  split.
  - intros tok data v err Htok Hr Hd Ht He.
    destruct (truthy (JStr name)) eqn:Hn;
      (destruct (auth_currentUser env) as [cu |] eqn:Hcu;
       [destruct Htok as (t & Hget & ->) | subst tok]);
      wp_run ltac:(idtac; fetch_replies env "/firebase-register" Hr);
      repeat split; reflexivity.
  - intros Hr.
    assert (Hd : get JNull "success" = inl TypeError) by reflexivity.
    destruct (truthy (JStr name)) eqn:Hn;
      wp_run ltac:(idtac; fetch_replies env "/firebase-register" Hr);
      repeat split; reflexivity.
Qed.

Lemma registration_refused_witness :
  (creation_succeeds
     (env_backend_says (JObj [("success", JBool false); ("error", JStr "Email not allowed.")]))
     "alice@example.com" "secret1" "Alice" (named alice "Alice")
   ∧ wp (registerForm_submit
           (env_backend_says (JObj [("success", JBool false); ("error", JStr "Email not allowed.")]))
           "Alice" "alice@example.com" "secret1" "secret1") (page idle idle)
        (λ r w', r = inr ()
                 ∧ shown_errors w'
                   = [js_or (JStr "Email not allowed.")
                        (JStr "Registration failed. Please try again.")]
                 ∧ scheduled_redirects w' = []
                 ∧ submit_button w' = restored idle))
  ∧ (creation_succeeds (env_backend_says JNull) "alice@example.com" "secret1" "Alice"
       (named alice "Alice")
     ∧ backend_replies (env_backend_says JNull) "/firebase-register" JNull
     ∧ wp (registerForm_submit (env_backend_says JNull) "Alice" "alice@example.com"
             "secret1" "secret1") (page idle idle)
          (λ r w', r = inr ()
                   ∧ shown_errors w' = [JStr "Network error. Please try again."]
                   ∧ scheduled_redirects w' = []
                   ∧ submit_button w' = restored idle)).
Proof.
  split.
  - pose (data := JObj [("success", JBool false); ("error", JStr "Email not allowed.")]).
    assert (H1 := creation_succeeds_alice (inr alice) (inr alice) (inr "token-1")
                    (backend_says data) "alice@example.com" "secret1").
    split; [exact H1 |].
    refine (proj1 (registration_refused (env_backend_says data) "Alice" "alice@example.com"
                     "secret1" idle idle (named alice "Alice") H1)
              (JStr "token-1") data (JBool false) (JStr "Email not allowed.")
              _ _ eq_refl eq_refl eq_refl).
    + apply token_retrieved_example.
    + apply backend_says_replies.
  - assert (H1 := creation_succeeds_alice (inr alice) (inr alice) (inr "token-1")
                    (backend_says JNull) "alice@example.com" "secret1").
    assert (H2 := backend_says_replies (inr alice) (inr alice) (inr alice) None
                    (inr "token-1") JNull "/firebase-register").
    split; [exact H1 |]. split; [exact H2 |].
    exact (proj2 (registration_refused (env_backend_says JNull) "Alice" "alice@example.com"
                    "secret1" idle idle (named alice "Alice") H1) H2).
Defined.

(** X14. A sign-up that fails with any raw code other than
    auth/email-already-in-use shows the translated message, re-enables the
    control and sends nothing to the backend; this holds when the account
    creation is rejected and also when the account was created and a
    trailing call then failed. *)
Theorem registration_other_failure (env : Env) (name email password : string)
    (b g : Button) (e : Exn) :
  code e ≠ Some already_in_use →
  (auth_createUserWithEmailAndPassword env email password = inl e →
   wp (registerForm_submit env name email password password) (page b g)
      (λ r w', r = inr ()
               ∧ events w' = [ CreateUser email password;
                               ShowError (getErrorMessage (property_key (code e))) ]
               ∧ submit_button w' = restored b))
  ∧ (∀ u0, auth_createUserWithEmailAndPassword env email password = inr u0 →
       profile_update env u0 name = Some e
       ∨ (profile_update env u0 name = None
          ∧ user_sendEmailVerification env (named u0 name) = Some e) →
       wp (registerForm_submit env name email password password) (page b g)
          (λ r w', r = inr ()
                   ∧ shown_errors w' = [getErrorMessage (property_key (code e))]
                   ∧ filter (λ ev, is_provider_call ev = false) (events w')
                     = [ShowError (getErrorMessage (property_key (code e)))]
                   ∧ submit_button w' = restored b)).
Proof.
  intros Hcode.
  assert (Hpw : negb (password =? password) = false) by by rewrite String.eqb_refl.
  assert (Hs : strict_eq (code e) already_in_use = false) by by apply strict_eq_false.
  split.
  - intros Hc. wp_run idtac. done.
  - intros u0 Hc Htrail. unfold profile_update, named in *.
    destruct (truthy (JStr name)) eqn:Hn.
    + destruct Htrail as [Hp | [Hp Hv]]; wp_run idtac; repeat split; reflexivity.
    + destruct Htrail as [Hp | [Hp Hv]]; [discriminate |].
      wp_run idtac; repeat split; reflexivity.
Qed.

Lemma registration_other_failure_witness :
  (code weak_password ≠ Some already_in_use
   ∧ auth_createUserWithEmailAndPassword env_weak_password "alice@example.com" "12345"
     = inl weak_password
   ∧ wp (registerForm_submit env_weak_password "Alice" "alice@example.com" "12345" "12345")
        (page idle idle)
        (λ r w', r = inr ()
                 ∧ events w'
                   = [ CreateUser "alice@example.com" "12345";
                       ShowError (getErrorMessage (property_key (code weak_password))) ]
                 ∧ submit_button w' = restored idle))
  ∧ (code network_failed ≠ Some already_in_use
     ∧ user_sendEmailVerification env_verification_fails (named alice "Alice")
       = Some network_failed
     ∧ wp (registerForm_submit env_verification_fails "Alice" "alice@example.com"
             "secret1" "secret1") (page idle idle)
          (λ r w', r = inr ()
                   ∧ shown_errors w' = [getErrorMessage (property_key (code network_failed))]
                   ∧ filter (λ ev, is_provider_call ev = false) (events w')
                     = [ShowError (getErrorMessage (property_key (code network_failed)))]
                   ∧ submit_button w' = restored idle)).
Proof.
  assert (H1 : code weak_password ≠ Some already_in_use) by discriminate.
  assert (H2 : code network_failed ≠ Some already_in_use) by discriminate.
  split.
  - split; [exact H1 |]. split; [reflexivity |].
    exact (proj1 (registration_other_failure env_weak_password "Alice" "alice@example.com"
                    "12345" idle idle weak_password H1) eq_refl).
  - split; [exact H2 |]. split; [reflexivity |].
    exact (proj2 (registration_other_failure env_verification_fails "Alice"
                    "alice@example.com" "secret1" idle idle network_failed H2)
             alice eq_refl (or_intror (conj eq_refl eq_refl))).
Defined.

Ltac trace_now :=
  repeat match goal with
         | |- context [nullable_string ?x] =>
             lazymatch x with
             | Some _ => fail
             | None => fail
             | _ => destruct x
             end
         end;
  repeat match goal with
         | |- context [getErrorMessage ?c] => generalize (getErrorMessage c); intro
         end;
  vm_compute.

(** X15. Whatever the provider and the backend answer, one submission of the
    registration form sends at most one request to /firebase-register and
    at most one to /api/check-deleted-email, and schedules at most one
    redirect; a redirect is scheduled only after a registration request and
    only when no error was shown. The same bounds hold for one click on the
    Google button. *)
Theorem one_request_one_redirect (env : Env)
    (name email password confirmPassword : string) (b g : Button) :
  wp (registerForm_submit env name email password confirmPassword) (page b g)
     (λ _ w', (length (requests_to "/firebase-register" w') ≤ 1
               ∧ length (requests_to "/api/check-deleted-email" w') ≤ 1
               ∧ length (scheduled_redirects w') ≤ 1)%nat
              ∧ (scheduled_redirects w' ≠ [] →
                 length (requests_to "/firebase-register" w') = 1
                 ∧ shown_errors w' = []))
  ∧ wp (googleSignUpBtn_click env) (page b g)
       (λ _ w', (length (requests_to "/firebase-register" w') ≤ 1
                 ∧ length (requests_to "/api/check-deleted-email" w') = 0
                 ∧ length (scheduled_redirects w') ≤ 1)%nat
                ∧ (scheduled_redirects w' ≠ [] →
                   length (requests_to "/firebase-register" w') = 1
                   ∧ shown_errors w' = [])).
Proof.
  split; wp_run idtac; trace_now;
    (split; [repeat split; repeat constructor |]);
    intros Hr; first [ by destruct Hr | split; reflexivity ].
Qed.

(** X23. The email registration never touches the Google control, and the
    Google sign-up never touches the submit control. *)
Theorem controls_independent (env : Env)
    (name email password confirmPassword : string) (b g : Button) :
  wp (registerForm_submit env name email password confirmPassword) (page b g)
     (λ _ w', google_button w' = g)
  ∧ wp (googleSignUpBtn_click env) (page b g)
       (λ _ w', submit_button w' = b).
Proof. split; wp_run idtac; reflexivity. Qed.

(** X17. In the recovery branch, when the email was soft-deleted, the
    sign-in succeeds, the token is retrieved and the backend answers with a
    truthy success, the flow shows no error and ends by scheduling its only
    redirect, to the dashboard after 1500 ms. *)
Theorem reregistration_success (env : Env) (name email password : string)
    (b g : Button) (u : User.t) (tok deleted data v : JValue) :
  creation_fails_with env email password already_in_use →
  check_deleted_answers env email deleted → truthy deleted = true →
  auth_signInWithEmailAndPassword env email password = inr u →
  token_retrieved env tok →
  backend_replies env "/firebase-register" data →
  get data "success" = inr v → truthy v = true →
  wp (registerForm_submit env name email password password) (page b g)
     (λ r w', r = inr ()
              ∧ requests_to "/firebase-register" w' = [reregistration_request tok u name]
              ∧ shown_errors w' = []
              ∧ scheduled_redirects w' = [("/dashboard", 1500%Z)]
              ∧ last (events w') = Some (Redirect "/dashboard" 1500)
              ∧ submit_button w' = {| disabled := true; innerHTML := spinner |}).
Proof.
  intros (e & Hc & Hcode) (resp & cdata & Hf & Hj & Hd) Hdel Hin Htok Hr Hs Hv.
  assert (Hpw : negb (password =? password) = false) by by rewrite String.eqb_refl.
  assert (Hse : strict_eq (code e) already_in_use = true) by by apply strict_eq_true.
  unfold token_retrieved in Htok.
  destruct (auth_currentUser env) as [cu |] eqn:Hcu;
    [destruct Htok as (t & Hget & ->) | subst tok];
    wp_run ltac:(idtac; first [ rewrite JSON_stringify_email
                              | fetch_replies env "/firebase-register" Hr ]);
    unfold reregistration_request;
    destruct (User.email u); repeat split; reflexivity.
Qed.

Lemma reregistration_success_witness :
  creation_fails_with (env_in_use true) "alice@example.com" "secret1" already_in_use
  ∧ check_deleted_answers (env_in_use true) "alice@example.com" (JBool true)
  ∧ auth_signInWithEmailAndPassword (env_in_use true) "alice@example.com" "secret1" = inr alice
  ∧ token_retrieved (env_in_use true) (JStr "token-1")
  ∧ backend_replies (env_in_use true) "/firebase-register" (JObj [("success", JBool true)])
  ∧ wp (registerForm_submit (env_in_use true) "Alice" "alice@example.com" "secret1" "secret1")
       (page idle idle)
       (λ r w', r = inr ()
                ∧ requests_to "/firebase-register" w'
                  = [reregistration_request (JStr "token-1") alice "Alice"]
                ∧ shown_errors w' = []
                ∧ scheduled_redirects w' = [("/dashboard", 1500%Z)]
                ∧ last (events w') = Some (Redirect "/dashboard" 1500)
                ∧ submit_button w' = {| disabled := true; innerHTML := spinner |}).
Proof.
  assert (H1 := creation_fails_in_use (inr alice) (inr alice) (inr "token-1")
                  (backend_ok true) "alice@example.com" "secret1").
  assert (H2 := check_deleted_answers_ok (inl email_in_use) (inr alice) (inr alice) None
                  (inr "token-1") true "alice@example.com").
  assert (H4 := token_retrieved_example (inl email_in_use) (inr alice) (inr alice) None
                  "token-1" (backend_ok true)).
  assert (H5 := backend_ok_registers (inl email_in_use) (inr alice) (inr alice) None
                  (inr "token-1") true).
  split; [exact H1 |]. split; [exact H2 |]. split; [reflexivity |].
  split; [exact H4 |]. split; [exact H5 |].
  exact (reregistration_success (env_in_use true) "Alice" "alice@example.com" "secret1"
           idle idle alice (JStr "token-1") (JBool true) (JObj [("success", JBool true)])
           (JBool true) H1 H2 eq_refl eq_refl H4 H5 eq_refl eq_refl).
Defined.

(** ** The Google sign-up and the password reset, path by path *)

(** The Google sign-up settles at a concrete page where the token is
    retrieved. *)
Lemma googleSignUpBtn_click_settles_witness :
  token_retrieved env_happy (JStr "token-1")
  ∧ wp (googleSignUpBtn_click env_happy) (page idle idle)
       (λ r w', r = inr () ∧ settled googleSignUpBtn idle w').
Proof.
  assert (H := token_retrieved_example (inr alice) (inr alice) (inr alice) None "token-1"
                 (backend_ok false)).
  split; [exact H |].
  exact (googleSignUpBtn_click_settles env_happy (JStr "token-1") idle idle H).
Defined.

(** X19. When the Google pop-up fails (closed, blocked, cancelled), the flow
    shows the translated message and re-enables the Google control; it asks
    for no token and sends nothing to the backend. *)
Theorem google_popup_failure (env : Env) (b g : Button) (e : Exn) :
  auth_signInWithPopup env = inl e →
  wp (googleSignUpBtn_click env) (page b g)
     (λ r w', r = inr ()
              ∧ events w' = [SignInPopup; ShowError (getErrorMessage (property_key (code e)))]
              ∧ google_button w' = restored g).
Proof. intros Hp. wp_run idtac. done. Qed.

Lemma google_popup_failure_witness :
  auth_signInWithPopup env_popup_closed = inl popup_closed
  ∧ wp (googleSignUpBtn_click env_popup_closed) (page idle idle)
       (λ r w', r = inr ()
                ∧ events w'
                  = [SignInPopup; ShowError (getErrorMessage (property_key (code popup_closed)))]
                ∧ google_button w' = restored idle).
Proof.
  split; [reflexivity |].
  exact (google_popup_failure env_popup_closed idle idle popup_closed eq_refl).
Defined.

(** X20. When the Google pop-up succeeds, the token is retrieved and the
    backend answers with a truthy success, the flow sends one request with
    the profile of the Google user and provider google, shows no error, and
    ends by scheduling its only redirect, to the dashboard after 1000 ms. *)
Theorem google_success (env : Env) (b g : Button) (u : User.t) (tok data v : JValue) :
  auth_signInWithPopup env = inr u →
  token_retrieved env tok →
  backend_replies env "/firebase-register" data →
  get data "success" = inr v → truthy v = true →
  wp (googleSignUpBtn_click env) (page b g)
     (λ r w', r = inr ()
              ∧ requests_to "/firebase-register" w' = [google_request tok u]
              ∧ member (google_request tok u) "provider" = Some (JStr "google")
              ∧ shown_errors w' = []
              ∧ scheduled_redirects w' = [("/dashboard", 1000%Z)]
              ∧ last (events w') = Some (Redirect "/dashboard" 1000)
              ∧ google_button w' = {| disabled := true; innerHTML := spinner |}).
Proof.
  intros Hp Htok Hr Hs Hv. unfold token_retrieved in Htok.
  destruct (auth_currentUser env) as [cu |] eqn:Hcu;
    [destruct Htok as (t & Hget & ->) | subst tok];
    wp_run ltac:(idtac; fetch_replies env "/firebase-register" Hr);
    unfold google_request;
    destruct (User.email u), (User.displayName u), (User.photoURL u);
    repeat split; reflexivity.
Qed.

Lemma google_success_witness :
  auth_signInWithPopup env_happy = inr alice
  ∧ token_retrieved env_happy (JStr "token-1")
  ∧ backend_replies env_happy "/firebase-register" (JObj [("success", JBool true)])
  ∧ wp (googleSignUpBtn_click env_happy) (page idle idle)
       (λ r w', r = inr ()
                ∧ requests_to "/firebase-register" w' = [google_request (JStr "token-1") alice]
                ∧ member (google_request (JStr "token-1") alice) "provider"
                  = Some (JStr "google")
                ∧ shown_errors w' = []
                ∧ scheduled_redirects w' = [("/dashboard", 1000%Z)]
                ∧ last (events w') = Some (Redirect "/dashboard" 1000)
                ∧ google_button w' = {| disabled := true; innerHTML := spinner |}).
Proof.
  assert (H2 := token_retrieved_example (inr alice) (inr alice) (inr alice) None "token-1"
                  (backend_ok false)).
  assert (H3 := backend_ok_registers (inr alice) (inr alice) (inr alice) None
                  (inr "token-1") false).
  split; [reflexivity |]. split; [exact H2 |]. split; [exact H3 |].
  exact (google_success env_happy idle idle alice (JStr "token-1")
           (JObj [("success", JBool true)]) (JBool true) eq_refl H2 H3 eq_refl eq_refl).
Defined.

(** X22. For an email of the accepted shape, the password-reset flow asks
    the provider once for a reset mail with the login page as continue URL.
    If the provider accepts, the flow shows the confirmation and schedules
    the redirect to the login page after 2500 ms, leaving the control
    disabled; if the provider rejects, it shows the translated message,
    re-enables the control and schedules no redirect. *)
Theorem forgotPassword_outcome (env : Env) (email : string) (b g : Button) :
  RegExp_test emailRegex email = true →
  wp (forgotPasswordForm_submit env email) (page b g)
     (λ r w',
        r = inr ()
        ∧ match auth_sendPasswordResetEmail env email (window_location_origin env +:+ "/login") with
          | None =>
              events w'
              = [ SendPasswordResetEmail email (window_location_origin env +:+ "/login");
                  ShowSuccess "Password reset email sent! Please check your inbox (and spam folder).";
                  Redirect "/login?success=Password reset email sent. Please check your inbox." 2500 ]
              ∧ submit_button w' = {| disabled := true; innerHTML := spinner |}
          | Some e =>
              events w'
              = [ SendPasswordResetEmail email (window_location_origin env +:+ "/login");
                  ShowError (getErrorMessage (property_key (code e))) ]
              ∧ submit_button w' = restored b
          end).
Proof.
  intros Hshape.
  assert (Ht : negb (RegExp_test emailRegex email) = false) by by rewrite Hshape.
  destruct (auth_sendPasswordResetEmail env email (window_location_origin env +:+ "/login"))
    as [e |] eqn:Hsend;
    wp_run idtac; done.
Qed.

Lemma forgotPassword_outcome_witness :
  RegExp_test emailRegex "user@example.com" = true
  ∧ wp (forgotPasswordForm_submit env_reset_fails "user@example.com") (page idle idle)
       (λ r w',
          r = inr ()
          ∧ match auth_sendPasswordResetEmail env_reset_fails "user@example.com"
                    (window_location_origin env_reset_fails +:+ "/login") with
            | None =>
                events w'
                = [ SendPasswordResetEmail "user@example.com"
                      (window_location_origin env_reset_fails +:+ "/login");
                    ShowSuccess "Password reset email sent! Please check your inbox (and spam folder).";
                    Redirect "/login?success=Password reset email sent. Please check your inbox." 2500 ]
                ∧ submit_button w' = {| disabled := true; innerHTML := spinner |}
            | Some e =>
                events w'
                = [ SendPasswordResetEmail "user@example.com"
                      (window_location_origin env_reset_fails +:+ "/login");
                    ShowError (getErrorMessage (property_key (code e))) ]
                ∧ submit_button w' = restored idle
            end).
Proof.
  split; [reflexivity |].
  exact (forgotPassword_outcome env_reset_fails "user@example.com" idle idle eq_refl).
Defined.

(** ** The provider configuration *)


(** ** The session mirror *)

(** X25. After any non-empty series of auth-state reports, the session
    storage holds the profile of the user of the last report under
    firebaseUser, and holds nothing under that key when the last report was
    a sign-out. *)
Theorem session_mirror_last_report (reports : list (option User.t))
    (last_report : option User.t) (sessionStorage : gmap string (list (string * JValue))) :
  last reports = Some last_report →
  auth_state_reports reports sessionStorage !! "firebaseUser"
  = firebaseUser_item <$> last_report.
Proof.
  destruct reports as [| r reports _] using rev_ind; [done |].
  rewrite last_snoc. intros [= ->].
  unfold auth_state_reports. rewrite foldl_app. cbn [foldl].
  destruct last_report as [u |]; unfold onAuthStateChanged; cbn [fmap option_fmap option_map].
  - apply lookup_insert_eq.
  - apply lookup_delete_eq.
Qed.

Lemma session_mirror_last_report_witness :
  last [Some alice; None; Some alice] = Some (Some alice)
  ∧ auth_state_reports [Some alice; None; Some alice] ∅ !! "firebaseUser"
    = firebaseUser_item <$> Some alice.
Proof.
  split; [reflexivity |].
  exact (session_mirror_last_report [Some alice; None; Some alice] (Some alice) ∅ eq_refl).
Defined.

(** X26. A report overwrites what an earlier report left (so repeating a
    report changes nothing), the listener touches no other key of the
    session storage, and the stored profile always has its five members,
    [null] ones included. *)
Theorem onAuthStateChanged_overwrites (user earlier : option User.t)
    (sessionStorage : gmap string (list (string * JValue))) :
  onAuthStateChanged user (onAuthStateChanged earlier sessionStorage)
  = onAuthStateChanged user sessionStorage
  ∧ (∀ k, k ≠ "firebaseUser" →
          onAuthStateChanged user sessionStorage !! k = sessionStorage !! k)
  ∧ (∀ u, keys (firebaseUser_item u)
          = ["uid"; "email"; "displayName"; "emailVerified"; "photoURL"]).
Proof.
  split; [| split].
  - destruct user, earlier; unfold onAuthStateChanged.
    + apply insert_insert_eq.
    + apply insert_delete_eq.
    + apply delete_insert_eq.
    + apply delete_delete_eq.
  - intros k Hk. destruct user; unfold onAuthStateChanged.
    + by rewrite lookup_insert_ne.
    + by rewrite lookup_delete_ne.
  - intros u. unfold firebaseUser_item.
    destruct (User.email u), (User.displayName u), (User.photoURL u); reflexivity.
Qed.

(** ** The theme toggle *)

(** X27. A new ThemeManager takes the stored theme, and dark when nothing or
    the empty string is stored; any other stored string is taken as it is.
    It displays that theme on the body and in the theme colour, creates the
    toggle when the page has none, leaves a toggle that is already there
    untouched, and writes nothing to the local storage. *)
Theorem ThemeManager_new (p : ThemeManager.Page) :
  let s := ThemeManager.new p in
  (ThemeManager.localStorage p !! "theme" = None
   ∨ ThemeManager.localStorage p !! "theme" = Some EmptyString →
   ThemeManager.theme s = "dark")
  ∧ (∀ t, ThemeManager.localStorage p !! "theme" = Some t → t ≠ EmptyString →
          ThemeManager.theme s = t)
  ∧ ThemeManager.data_theme (ThemeManager.page s) = Some (ThemeManager.theme s)
  ∧ ThemeManager.theme_color (ThemeManager.page s)
    = Some (ThemeManager.color_of (ThemeManager.theme s))
  ∧ (ThemeManager.toggle p = None →
     ThemeManager.toggle (ThemeManager.page s)
     = Some {| ThemeManager.label := Some (ThemeManager.label_of (ThemeManager.theme s));
               ThemeManager.icon := Some (ThemeManager.icon_of (ThemeManager.theme s)) |})
  ∧ (∀ t, ThemeManager.toggle p = Some t →
          ThemeManager.toggle (ThemeManager.page s) = Some t)
  ∧ ThemeManager.localStorage (ThemeManager.page s) = ThemeManager.localStorage p
  ∧ ThemeManager.themechange (ThemeManager.page s) = ThemeManager.themechange p.
Proof.
  cbv zeta. unfold ThemeManager.new, ThemeManager.createToggleButton, ThemeManager.applyTheme.
  cbn [ThemeManager.theme ThemeManager.page ThemeManager.toggle].
  repeat split.
  - intros [-> | ->]; reflexivity.
  - intros t -> Ht. unfold ThemeManager.or_default.
    destruct (String.eqb_spec t EmptyString); done.
  - by destruct (ThemeManager.toggle p).
  - by destruct (ThemeManager.toggle p).
  - by intros ->.
  - by intros t ->.
  - by destruct (ThemeManager.toggle p).
  - by destruct (ThemeManager.toggle p).
Qed.

(** X28. toggleTheme always ends on dark or light, on a theme different from
    the one before; it stores the new theme under theme in the local
    storage and touches no other key, displays it, and dispatches one
    themechange event with it. From dark or light, toggling twice gives the
    theme back; from any other theme, toggling gives dark. *)
Theorem toggleTheme_result (s : ThemeManager.State) :
  let s' := ThemeManager.toggleTheme s in
  (ThemeManager.theme s' = "dark" ∨ ThemeManager.theme s' = "light")
  ∧ ThemeManager.theme s' ≠ ThemeManager.theme s
  ∧ ThemeManager.localStorage (ThemeManager.page s') !! "theme" = Some (ThemeManager.theme s')
  ∧ (∀ k, k ≠ "theme" →
          ThemeManager.localStorage (ThemeManager.page s') !! k
          = ThemeManager.localStorage (ThemeManager.page s) !! k)
  ∧ ThemeManager.data_theme (ThemeManager.page s') = Some (ThemeManager.theme s')
  ∧ ThemeManager.theme_color (ThemeManager.page s')
    = Some (ThemeManager.color_of (ThemeManager.theme s'))
  ∧ ThemeManager.themechange (ThemeManager.page s')
    = (ThemeManager.themechange (ThemeManager.page s) ++ [ThemeManager.theme s'])%list
  ∧ (ThemeManager.theme s = "dark" ∨ ThemeManager.theme s = "light" →
     ThemeManager.theme (ThemeManager.toggleTheme s') = ThemeManager.theme s)
  ∧ (ThemeManager.theme s ≠ "dark" → ThemeManager.theme s' = "dark").
Proof.
  cbv zeta. destruct s as [theme p].
  unfold ThemeManager.toggleTheme, ThemeManager.updateToggleButton, ThemeManager.applyTheme.
  cbn [ThemeManager.theme ThemeManager.page ThemeManager.toggle ThemeManager.localStorage
       ThemeManager.data_theme ThemeManager.theme_color ThemeManager.themechange].
  destruct (String.eqb_spec theme "dark") as [-> | Hne];
    destruct (ThemeManager.toggle p);
    cbn [ThemeManager.theme ThemeManager.page ThemeManager.toggle ThemeManager.localStorage
         ThemeManager.data_theme ThemeManager.theme_color ThemeManager.themechange];
    repeat split;
    try (by auto); try (by apply lookup_insert_eq);
    try (by intros k Hk; rewrite lookup_insert_ne);
    try (by intros [? | ?]; simplify_eq).
Qed.

(** X29. The storage listener ignores every key but theme (a cleared
    storage, which has no key, included). For theme it takes the new value,
    and dark when the value was removed or is the empty string; it displays
    the theme, but writes nothing to the local storage and dispatches no
    themechange event. *)
Theorem storage_listener_result (key newValue : option string) (s : ThemeManager.State) :
  let s' := ThemeManager.storage_listener key newValue s in
  (key ≠ Some "theme" → s' = s)
  ∧ (key = Some "theme" →
     ThemeManager.theme s' = ThemeManager.or_default newValue "dark"
     ∧ (newValue = None ∨ newValue = Some EmptyString → ThemeManager.theme s' = "dark")
     ∧ ThemeManager.data_theme (ThemeManager.page s') = Some (ThemeManager.theme s')
     ∧ ThemeManager.theme_color (ThemeManager.page s')
       = Some (ThemeManager.color_of (ThemeManager.theme s'))
     ∧ ThemeManager.localStorage (ThemeManager.page s')
       = ThemeManager.localStorage (ThemeManager.page s)
     ∧ ThemeManager.themechange (ThemeManager.page s')
       = ThemeManager.themechange (ThemeManager.page s)).
Proof.
  cbv zeta. unfold ThemeManager.storage_listener. split.
  - intros Hk. by rewrite bool_decide_eq_false_2.
  - intros ->. rewrite bool_decide_eq_true_2 by done.
    unfold ThemeManager.updateToggleButton, ThemeManager.applyTheme.
    cbn [ThemeManager.theme ThemeManager.page ThemeManager.toggle].
    destruct (ThemeManager.toggle (ThemeManager.page s)); repeat split;
      try (intros [-> | ->]; reflexivity).
Qed.




